(** * ManifestLoader: the webpack asset-manifest loader of the Coral server

    A shallow embedding of
    [server/src/core/server/app/helpers/manifestLoader.ts].

    The loader reads property chains off a freshly parsed JSON document and
    branches on JavaScript truthiness, so the embedding starts with the
    values [JSON.parse] / [res.json()] can produce, their [ToBoolean]
    conversion and property access.  The stateful part (the loader object,
    the logger, the network and the timer) is an explicit state-and-trace
    monad. *)

From Stdlib Require Import ZArith QArith Qpower List String Bool Lia.
From Stdlib Require Import DecimalString.
From Stdlib Require Import PrimFloat FloatOps SpecFloat.
Import ListNotations.

Local Open Scope string_scope.
Local Open Scope list_scope.

(** ** JavaScript values *)

(** The values a parsed JSON document is made of, together with
    [undefined], which property access produces.  An object keeps its own
    enumerable properties in the order [Object.keys] reports them; a number
    is the rational its double denotes (only whether it is zero is ever
    observed here). *)
#[warnings="-register-all"]
Inductive value : Type :=
| Undefined
| Null
| Bool (b : bool)
| Number (q : Q)
| Str (s : string)
| Arr (items : list value)
| Obj (props : list (string * value)).

(** What a [throw] carries. *)
Inductive error : Type :=
| TypeError (msg : string)       (* raised by the language itself *)
| ReferenceError (msg : string)
| Error (msg : string)           (* [new Error(msg)] *)
| HostError (msg : string).      (* file system, network, JSON syntax *)

(** Evaluation of an expression that may throw. *)
Inductive result (A : Type) : Type :=
| Ok (a : A)
| Throw (e : error).
Arguments Ok {A} a.
Arguments Throw {A} e.

Definition rbind {A B : Type} (r : result A) (k : A -> result B) : result B :=
  match r with
  | Ok a => k a
  | Throw e => Throw e
  end.

Declare Scope result_scope.
Delimit Scope result_scope with result.
Notation "x <- r ;; k" := (rbind r (fun x => k))
  (at level 61, r at next level, right associativity) : result_scope.

(** [ToBoolean]: [undefined], [null], [false], zero and the empty string are
    falsy; every object and every array, also an empty one, is truthy. *)
Definition truthy (v : value) : bool :=
  match v with
  | Undefined | Null => false
  | Bool b => b
  | Number q => negb (Qeq_bool q 0)
  | Str s => negb (s =? "")
  | Arr _ | Obj _ => true
  end.

(** The property name of an array index: its decimal numeral. *)
Definition indexKey (i : nat) : string :=
  NilZero.string_of_uint (Nat.to_uint i).

Definition indexed (items : list value) : list (string * value) :=
  combine (map indexKey (seq 0 (List.length items))) items.

Definition chars (s : string) : list value :=
  map (fun c => Str (String c EmptyString)) (list_ascii_of_string s).

(** Own enumerable properties, in [Object.keys] order. *)
Definition ownProps (v : value) : list (string * value) :=
  match v with
  | Obj props => props
  | Arr items => indexed items
  | Str s => indexed (chars s)
  | _ => []
  end.

Fixpoint lookup (k : string) (props : list (string * value)) : option value :=
  match props with
  | [] => None
  | (k', v) :: rest => if k =? k' then Some v else lookup k rest
  end.

Definition lengthOf (v : value) : option value :=
  match v with
  | Arr items => Some (Number (inject_Z (Z.of_nat (List.length items))))
  | Str s => Some (Number (inject_Z (Z.of_nat (String.length s))))
  | _ => None
  end.

(** [v[k]] and [v.k].  Reading a property of [undefined] or [null] throws a
    [TypeError]; a property the value does not have reads as [undefined].
    Inherited prototype members (methods) are not represented: the loader
    reads the keys [entrypoints], [assets], [js] and keys handed out by
    [Object.keys], none of which is one. *)
Definition get (v : value) (k : string) : result value :=
  match v with
  | Undefined => Throw (TypeError "Cannot read properties of undefined")
  | Null => Throw (TypeError "Cannot read properties of null")
  | _ =>
      match lookup k (ownProps v) with
      | Some x => Ok x
      | None =>
          if k =? "length"
          then Ok (match lengthOf v with Some n => n | None => Undefined end)
          else Ok Undefined
      end
  end.

(** [Object.keys(v)]. *)
Definition Object_keys (v : value) : result (list string) :=
  match v with
  | Undefined | Null => Throw (TypeError "Cannot convert undefined or null to object")
  | _ => Ok (map fst (ownProps v))
  end.

(** [keys[0]] on the array [Object.keys] returns: a string, or [undefined]
    (here [None]) when the array is empty. *)
Definition first (keys : list string) : option string := hd_error keys.

(** A [string | undefined] as a value, for its truthiness. *)
Definition keyValue (k : option string) : value :=
  match k with
  | Some s => Str s
  | None => Undefined
  end.

(** [ToPropertyKey] of a [string | undefined]: indexing with [undefined]
    reads the property named "undefined". *)
Definition propertyKey (k : option string) : string :=
  match k with
  | Some s => s
  | None => "undefined"
  end.

(** ** Assets, entrypoints and the [Entrypoints] index *)

Record Asset : Type := { src : string; integrity : string }.

(** Modelled from the spec: the [Entrypoint] type, declared in
    [./entrypoints], which is not part of this file: "ordered sequence of JS
    assets and ordered sequence of CSS assets, each [{src, integrity}]". *)
Record Entrypoint : Type := { js : list Asset; css : list Asset }.

(** The [Entrypoints] class as the loader uses it: [new Entrypoints(manifest)],
    which may throw on a document it cannot index, and [.get(name)], which
    returns an entrypoint or [null].  The loader is verified against this
    interface. *)
Class EntrypointsClass : Type := {
  Entrypoints : Type;
  newEntrypoints : value -> result Entrypoints;
  Entrypoints_get : Entrypoints -> string -> option Entrypoint
}.

(** Modelled from the spec: the [Entrypoints] class of [./entrypoints], which
    is not part of this file.  "Given a Manifest, expose [get(name)]": the
    index is built once "by grouping each raw entrypoint's flat asset-group
    structure into the normalized [{js: [...], css: [...]}] shape (ordering
    preserved from source groups)", one entry per name of the manifest's
    [entrypoints] section, and "[get] returns null for unknown names".  The
    spec describes the index on documents of the manifest's wire shape; on
    any other document this model's constructor throws. *)
Definition assetOf (v : value) : result Asset :=
  match get v "src", get v "integrity" with
  | Ok (Str s), Ok (Str i) => Ok {| src := s; integrity := i |}
  | _, _ => Throw (TypeError "not an asset")
  end.

Fixpoint assetsOf (items : list value) : result (list Asset) :=
  match items with
  | [] => Ok []
  | v :: rest => (a <- assetOf v ;; l <- assetsOf rest ;; Ok (a :: l))%result
  end.

Definition groupOf (assets : value) (group : string) : result (list Asset) :=
  match get assets group with
  | Ok (Arr items) => assetsOf items
  | Ok Undefined => Ok []
  | Ok _ => Throw (TypeError "not an asset group")
  | Throw e => Throw e
  end.

Definition entrypointOf (raw : value) : result Entrypoint :=
  (assets <- get raw "assets" ;;
   j <- groupOf assets "js" ;;
   c <- groupOf assets "css" ;;
   Ok {| js := j; css := c |})%result.

Fixpoint indexOf (props : list (string * value))
  : result (list (string * Entrypoint)) :=
  match props with
  | [] => Ok []
  | (name, raw) :: rest =>
      (e <- entrypointOf raw ;; l <- indexOf rest ;; Ok ((name, e) :: l))%result
  end.

Definition specNew (manifest : value) : result (list (string * Entrypoint)) :=
  (section <- get manifest "entrypoints" ;;
   match section with
   | Obj props => indexOf props
   | _ => Throw (TypeError "not an entrypoints section")
   end)%result.

Fixpoint specGet (index : list (string * Entrypoint)) (name : string)
  : option Entrypoint :=
  match index with
  | [] => None
  | (n, e) :: rest => if name =? n then Some e else specGet rest name
  end.

#[global] Instance specEntrypoints : EntrypointsClass := {|
  Entrypoints := list (string * Entrypoint);
  newEntrypoints := specNew;
  Entrypoints_get := specGet
|}.

(** ** The loader's surroundings *)

(** A response of [node-fetch]: its status and what [res.json()] settles to. *)
Record Response : Type := { status : Z; json : result value }.

(** [res.ok]: the status is in the range 200-299. *)
Definition ok (res : Response) : bool :=
  ((200 <=? status res) && (status res <? 300))%Z.

(** What the network does with one [fetch(url)]: it never settles, it
    rejects, or it resolves with a response. *)
Inductive reply : Type :=
| Unanswered
| Failed (e : error)
| Responded (res : Response).

(** Node's [__dirname], [path.join], [fs.readFileSync(_, utf8)] and
    [JSON.parse]. *)
Record Host : Type := {
  dirname : string;
  path_join : list string -> string;
  readFileSync : string -> result string;
  JSON_parse : string -> result value
}.

(** Observable effects, in program order.  Durations are JavaScript numbers:
    IEEE 754 binary64 doubles. *)
Inductive event : Type :=
| LogInfo (msg : string)
| LogError (msg : string)
| LogRetry (waitForMS : float)   (* logger.warn: "Failed to load entrypoint, retrying in ..ms" *)
| ReadFile (path : string)
| Fetch (url : string)
| WaitFor (ms : float).

(** How an [async] call ends: its promise resolves, rejects, or is still
    pending because the network has not answered. *)
Inductive outcome (A : Type) : Type :=
| Resolved (a : A)
| Rejected (e : error)
| Pending.
Arguments Resolved {A} a.
Arguments Rejected {A} e.
Arguments Pending {A}.

Definition INVALID_MANIFEST_MAX_RETRIES : Z := 9999.

Record ManifestLoaderOptions : Type := {
  fromWebpackDevServerURL : option string;   (* string | null | undefined *)
  injectWebpackDevServerBundle : bool        (* absent reads as false *)
}.

(** [options.fromWebpackDevServerURL] when it is truthy: a non-empty string. *)
Definition devServerURL (o : ManifestLoaderOptions) : option string :=
  match fromWebpackDevServerURL o with
  | Some u => if u =? "" then None else Some u
  | None => None
  end.

(** The first validity condition of [fetchManifest] (lines 125-126):
    [!manifest.entrypoints ||
     !manifest.entrypoints[Object.keys(manifest.entrypoints)[0]].assets.js]. *)
Definition invalidManifest (manifest : value) : result bool :=
  (e <- get manifest "entrypoints" ;;
   if negb (truthy e) then Ok true
   else
     obj <- get manifest "entrypoints" ;;
     arg <- get manifest "entrypoints" ;;
     keys <- Object_keys arg ;;
     entry <- get obj (propertyKey (first keys)) ;;
     assets <- get entry "assets" ;;
     j <- get assets "js" ;;
     Ok (negb (truthy j)))%result.

(** [Object.keys(manifest.entrypoints)[0]] (line 136). *)
Definition firstEntrypointOf (manifest : value) : result (option string) :=
  (arg <- get manifest "entrypoints" ;;
   keys <- Object_keys arg ;;
   Ok (first keys))%result.

(** The second condition (lines 138-139):
    [!firstEntrypoint || !manifest.entrypoints[firstEntrypoint].assets.js]. *)
Definition notReady (manifest : value) (firstEntrypoint : option string)
  : result bool :=
  (if negb (truthy (keyValue firstEntrypoint)) then Ok true
   else
     obj <- get manifest "entrypoints" ;;
     entry <- get obj (propertyKey firstEntrypoint) ;;
     assets <- get entry "assets" ;;
     j <- get assets "js" ;;
     Ok (negb (truthy j)))%result.

(** The asset the dev-server bundle is injected as (line 178). *)
Definition devServerAsset : Asset :=
  {| src := "webpack-dev-server.js"; integrity := "" |}.

(** Modelled from the spec: the server's [Config] ([coral-server/config]) is
    not part of this file; the loader reads one key of it, "a configured
    port number". *)
Record Config : Type := { dev_port : N }.

(** What a template literal renders a non-negative integer as. *)
Definition decimal (n : N) : string :=
  NilZero.string_of_uint (N.to_uint n).

(** The path [loadManifestFromFile] reads (lines 51-63). *)
Definition manifestFilepath (h : Host) (manifestFilename : string) : string :=
  path_join h [dirname h; ".."; ".."; ".."; ".."; ".."; "..";
               "client"; "dist"; "static"; manifestFilename].

Section Loader.

Context {E : EntrypointsClass}.

(** The fields of a [ManifestLoader] instance. *)
Record ManifestLoader : Type := {
  manifestFilename : string;
  manifest : value;                          (* Manifest | null *)
  entrypoints : option Entrypoints;          (* Entrypoints | null *)
  options : ManifestLoaderOptions;
  invalidManifestCounter : Z
}.

Definition setCounter (c : Z) (self : ManifestLoader) : ManifestLoader :=
  {| manifestFilename := manifestFilename self;
     manifest := manifest self;
     entrypoints := entrypoints self;
     options := options self;
     invalidManifestCounter := c |}.

(** *** Asynchronous methods: loader state in, outcome, state and trace out *)

Definition Async (A : Type) : Type :=
  ManifestLoader -> outcome A * ManifestLoader * list event.

Definition ret {A : Type} (a : A) : Async A :=
  fun self => (Resolved a, self, []).

Definition throw {A : Type} (e : error) : Async A :=
  fun self => (Rejected e, self, []).

Definition pending {A : Type} : Async A :=
  fun self => (Pending, self, []).

Definition bind {A B : Type} (m : Async A) (k : A -> Async B) : Async B :=
  fun self =>
    match m self with
    | (Resolved a, self', t) =>
        match k a self' with
        | (o, self'', t') => (o, self'', t ++ t')
        end
    | (Rejected e, self', t) => (Rejected e, self', t)
    | (Pending, self', t) => (Pending, self', t)
    end.

Definition emit (e : event) : Async unit :=
  fun self => (Resolved tt, self, [e]).

Definition lift {A : Type} (r : result A) : Async A :=
  match r with
  | Ok a => ret a
  | Throw e => throw e
  end.

Definition this : Async ManifestLoader :=
  fun self => (Resolved self, self, []).

Definition assignCounter (c : Z) : Async unit :=
  fun self => (Resolved tt, setCounter c self, []).

(** [await fetch(url)] against the network's reply. *)
Definition fetch (url : string) (r : reply) : Async Response :=
  fun self =>
    match r with
    | Unanswered => (Pending, self, [Fetch url])
    | Failed e => (Rejected e, self, [Fetch url])
    | Responded res => (Resolved res, self, [Fetch url])
    end.

Declare Scope async_scope.
Delimit Scope async_scope with async.
Notation "x <- m ;; k" := (bind m (fun x => k))
  (at level 61, m at next level, right associativity) : async_scope.
Notation "m ;; k" := (bind m (fun _ => k))
  (at level 61, right associativity) : async_scope.
Local Open Scope async_scope.

(** [fetchManifest] (lines 112-145), given the network's reply to its one
    [fetch]. *)
Definition fetchManifest (url : string) (r : reply) : Async value :=
  emit (LogInfo ("Loading manifests from Webpack Dev Server '" ++ url ++ "'")) ;;
  res <- fetch url r ;;
  if negb (ok res) then
    emit (LogError "could not load the generated manifest") ;;
    ret Null
  else
    manifest <- lift (json res) ;;
    invalid <- lift (invalidManifest manifest) ;;
    if invalid then
      self <- this ;;
      assignCounter (invalidManifestCounter self + 1) ;;
      self <- this ;;
      if (invalidManifestCounter self >? INVALID_MANIFEST_MAX_RETRIES)%Z then
        throw (Error ("Invalid manifest while loading '" ++ url ++ "'"))
      else
        ret Null
    else
      (* We got a valid manifest, reset counter. *)
      assignCounter 0 ;;
      firstEntrypoint <- lift (firstEntrypointOf manifest) ;;
      retry <- lift (notReady manifest firstEntrypoint) ;;
      if retry then
        (* probably not ready -> retry! *)
        ret Null
      else
        ret manifest.

(** [fetchManifestAndRetry] (lines 148-158), run against the replies the
    network gives to the successive fetches; when they are used up the next
    fetch stays unanswered. *)
Fixpoint fetchManifestAndRetry (url : string) (network : list reply)
    (waitForMS : float) : Async value :=
  match network with
  | [] =>
      _ <- fetchManifest url Unanswered ;;
      pending
  | r :: network' =>
      manifest <- fetchManifest url r ;;
      if truthy manifest then
        ret manifest
      else
        emit (LogRetry waitForMS) ;;
        emit (WaitFor waitForMS) ;;
        fetchManifestAndRetry url network' (waitForMS * 1.5)%float
  end.

(** [load()] (lines 109-166).  The message of the last [throw] interpolates
    [name], which is bound neither in [load] nor in the module: under Node
    evaluating it raises a [ReferenceError] before the [Error] is built. *)
Definition load (network : list reply) : Async value :=
  self <- this ;;
  match devServerURL (options self) with
  | Some base =>
      let url := (base ++ "/" ++ manifestFilename self)%string in
      fetchManifestAndRetry url network 1000%float
  | None =>
      if truthy (manifest self) then ret (manifest self)
      else throw (ReferenceError "name is not defined")
  end.

(** The accessor [createEntrypointLoader] returns: a zero-argument
    asynchronous function. *)
Definition EntrypointLoader : Type := list reply -> Async (option Entrypoint).

(** [createEntrypointLoader(name)] (lines 168-191). *)
Definition createEntrypointLoader (self : ManifestLoader) (name : string)
  : result EntrypointLoader :=
  match devServerURL (options self) with
  | Some _ =>
      Ok (fun network =>
            m <- load network ;;
            index <- lift (newEntrypoints m) ;;
            let entrypoint := Entrypoints_get index name in
            self' <- this ;;
            match entrypoint with
            | Some e =>
                if injectWebpackDevServerBundle (options self') then
                  ret (Some {| js := js e ++ [devServerAsset]; css := css e |})
                else ret (Some e)
            | None => ret None
            end)
  | None =>
      match entrypoints self with
      | Some index =>
          let entrypoint := Entrypoints_get index name in
          Ok (fun _ => ret entrypoint)
      | None => Throw (Error ("Failed to load entrypoint " ++ name))
      end
  end.

(** [loadManifestFromFile] (lines 48-80): the parsed file, or [null] when
    reading or parsing throws. *)
Definition loadManifestFromFile (h : Host) (manifestFilename : string)
  : value * list event :=
  let manifestFilepath :=
    path_join h [dirname h; ".."; ".."; ".."; ".."; ".."; "..";
                 "client"; "dist"; "static"; manifestFilename] in
  let t := [LogInfo "attempting to load manifest"; ReadFile manifestFilepath] in
  match rbind (readFileSync h manifestFilepath) (JSON_parse h) with
  | Ok manifest => (manifest, t)
  | Throw _ =>
      (Null, t ++ [LogError "could not load the manifest, maybe you need to run `npm run build` on the client?"])
  end.

(** The constructor (lines 88-107).  [new Entrypoints(..)] is an object, so
    the second guard never fires. *)
Definition newManifestLoader (h : Host) (manifestFilename : string)
    (options : ManifestLoaderOptions) : result ManifestLoader * list event :=
  let self :=
    {| manifestFilename := manifestFilename; manifest := Null;
       entrypoints := None; options := options;
       invalidManifestCounter := 0 |} in
  match devServerURL options with
  | Some _ => (Ok self, [])
  | None =>
      let (m, t) := loadManifestFromFile h manifestFilename in
      if negb (truthy m) then
        (Throw (Error ("Failed to load manifest file " ++ manifestFilename)), t)
      else
        match newEntrypoints m with
        | Throw e => (Throw e, t)
        | Ok index =>
            (Ok {| manifestFilename := manifestFilename; manifest := m;
                   entrypoints := Some index; options := options;
                   invalidManifestCounter := 0 |}, t)
        end
  end.

(** [createManifestLoader] (lines 194-204), with
    [process.env.WEBPACK_DEV_SERVER] as an argument: a string, or [None]
    when the variable is not set. *)
Definition createManifestLoader (h : Host) (WEBPACK_DEV_SERVER : option string)
    (config : Config) (manifestFilename : string)
  : result ManifestLoader * list event :=
  let isTrue :=
    match WEBPACK_DEV_SERVER with
    | Some v => v =? "true"
    | None => false
    end in
  let fromWebpackDevServerURL :=
    if isTrue
    then Some ("http://127.0.0.1:" ++ decimal (dev_port config))%string
    else None in
  newManifestLoader h manifestFilename
    {| fromWebpackDevServerURL := fromWebpackDevServerURL;
       injectWebpackDevServerBundle := isTrue |}.

(** [fetchManifest] as the claim of redundancy would have it: the same
    function with the second condition (lines 136-143) left out. *)
Definition fetchManifestFirstCheckOnly (url : string) (r : reply) : Async value :=
  emit (LogInfo ("Loading manifests from Webpack Dev Server '" ++ url ++ "'")) ;;
  res <- fetch url r ;;
  if negb (ok res) then
    emit (LogError "could not load the generated manifest") ;;
    ret Null
  else
    manifest <- lift (json res) ;;
    invalid <- lift (invalidManifest manifest) ;;
    if invalid then
      self <- this ;;
      assignCounter (invalidManifestCounter self + 1) ;;
      self <- this ;;
      if (invalidManifestCounter self >? INVALID_MANIFEST_MAX_RETRIES)%Z then
        throw (Error ("Invalid manifest while loading '" ++ url ++ "'"))
      else
        ret Null
    else
      assignCounter 0 ;;
      ret manifest.

(** The loader after a series of [fetchManifest] calls, one per reply, however
    the calls are spread over [load()] invocations and however each ends:
    nothing else touches the loader's fields. *)
Fixpoint afterFetches (url : string) (rs : list reply) (self : ManifestLoader)
  : ManifestLoader :=
  match rs with
  | [] => self
  | r :: rs' => afterFetches url rs' (snd (fst (fetchManifest url r self)))
  end.

End Loader.

(** ** Reading the trace *)

(** The delays handed to [waitFor], in order. *)
Definition waits (t : list event) : list float :=
  flat_map (fun e => match e with WaitFor ms => [ms] | _ => [] end) t.

(** The number of [fetch] calls issued. *)
Definition fetches (t : list event) : nat :=
  List.length (filter (fun e => match e with Fetch _ => true | _ => false end) t).



(** The fetches, the waits and their warnings, in the order they occur. *)
Definition timeline (t : list event) : list event :=
  filter (fun e => match e with
                   | Fetch _ | WaitFor _ | LogRetry _ => true
                   | _ => false
                   end) t.

(** What every [fetchManifest] call starts with: the log line and the fetch. *)
Definition loadingTrace (url : string) : list event :=
  [LogInfo ("Loading manifests from Webpack Dev Server '" ++ url ++ "'");
   Fetch url].

(** A trace put in front of a computation's own. *)
Definition after {A S : Type} (t : list event) (x : A * S * list event)
  : A * S * list event :=
  match x with
  | (a, s, t') => (a, s, t ++ t')
  end.

(** ** The five ways one [fetchManifest] call can go *)

Inductive verdict : Type :=
| NoReply                 (* the fetch is still pending *)
| Throws (e : error)      (* fetch, res.json() or a property read threw *)
| HttpFailure             (* [!res.ok] *)
| Invalid                 (* the first condition holds: counted *)
| NotReady                (* the second condition holds: not counted *)
| Valid (m : value).      (* returned to the caller *)

Definition verdictOf (r : reply) : verdict :=
  match r with
  | Unanswered => NoReply
  | Failed e => Throws e
  | Responded res =>
      if negb (ok res) then HttpFailure
      else
        match json res with
        | Throw e => Throws e
        | Ok m =>
            match invalidManifest m with
            | Throw e => Throws e
            | Ok true => Invalid
            | Ok false =>
                match rbind (firstEntrypointOf m) (notReady m) with
                | Throw e => Throws e
                | Ok true => NotReady
                | Ok false => Valid m
                end
            end
        end
  end.

(** The manifest a reply carries into validation, if it gets that far. *)
Definition manifestOf (r : reply) : option value :=
  match r with
  | Responded res =>
      if ok res then match json res with Ok m => Some m | Throw _ => None end
      else None
  | _ => None
  end.

(** Replies after which [load()] goes round again. *)
Definition retryable (r : reply) : bool :=
  match verdictOf r with
  | HttpFailure | Invalid | NotReady => true
  | _ => false
  end.

Definition isInvalid (r : reply) : bool :=
  match verdictOf r with
  | Invalid => true
  | _ => false
  end.

(** Replies whose manifest was validated to the end, one way or the other. *)
Definition validated (r : reply) : bool :=
  match verdictOf r with
  | Invalid | NotReady | Valid _ => true
  | _ => false
  end.

Definition invalidCount (net : list reply) : Z :=
  Z.of_nat (List.length (filter isInvalid net)).

(** ** Sample documents and loaders *)

Definition sampleAsset (file : string) : value :=
  Obj [("src", Str file); ("integrity", Str "sha256-abc")].

(** [{"entrypoints": {"main": {"assets": {"js": [..], "css": []}}}, ..}] *)
Definition sampleManifest : value :=
  Obj [("assets/js/main.js", sampleAsset "assets/js/main.js");
       ("entrypoints",
        Obj [("main",
              Obj [("assets",
                    Obj [("js", Arr [sampleAsset "assets/js/main.js"]);
                         ("css", Arr [])])])])].

(** [{"entrypoints": {}}] *)
Definition manifestWithEmptyEntrypoints : value :=
  Obj [("entrypoints", Obj [])].

(** [{"assets/js/main.js": {..}}]: no [entrypoints] at all. *)
Definition manifestWithoutEntrypoints : value :=
  Obj [("assets/js/main.js", sampleAsset "assets/js/main.js")].


(** [{"entrypoints": {"main": {"assets": {"css": []}}}}] *)
Definition manifestWithoutJs : value :=
  Obj [("entrypoints", Obj [("main", Obj [("assets", Obj [("css", Arr [])])])])].

(** [{"entrypoints": {"": {"assets": {"js": [..]}}}}]: the first entrypoint
    is named by the empty string. *)
Definition manifestWithEmptyName : value :=
  Obj [("entrypoints",
        Obj [("", Obj [("assets",
                        Obj [("js", Arr [sampleAsset "assets/js/main.js"])])])])].

Definition respond (code : Z) (body : value) : Response :=
  {| status := code; json := Ok body |}.

Definition devOptions : ManifestLoaderOptions :=
  {| fromWebpackDevServerURL := Some "http://127.0.0.1:8080";
     injectWebpackDevServerBundle := true |}.

Definition fileOptions : ManifestLoaderOptions :=
  {| fromWebpackDevServerURL := None;
     injectWebpackDevServerBundle := true |}.

(** A dev-mode loader as the constructor leaves it, and one whose counter
    has reached the ceiling. *)
Definition devLoader : ManifestLoader :=
  {| manifestFilename := "asset-manifest.json"; manifest := Null;
     entrypoints := None; options := devOptions;
     invalidManifestCounter := 0 |}.

Definition devLoaderAtCeiling : ManifestLoader :=
  setCounter INVALID_MANIFEST_MAX_RETRIES devLoader.

Definition sampleURL : string := "http://127.0.0.1:8080/asset-manifest.json".

(** A host whose file system holds the sample manifest. *)
Definition sampleHost : Host :=
  {| dirname := "/srv/dist/core/server/app/helpers";
     path_join := String.concat "/";
     readFileSync := fun _ => Ok "{..}";
     JSON_parse := fun _ => Ok sampleManifest |}.

Definition sampleIndex : list (string * Entrypoint) :=
  [("main",
    {| js := [{| src := "assets/js/main.js"; integrity := "sha256-abc" |}];
       css := [] |})].

Definition fileLoader : ManifestLoader :=
  {| manifestFilename := "asset-manifest.json"; manifest := sampleManifest;
     entrypoints := Some sampleIndex; options := fileOptions;
     invalidManifestCounter := 0 |}.

Definition fileLoaderTrace : list event :=
  [LogInfo "attempting to load manifest";
   ReadFile "/srv/dist/core/server/app/helpers/../../../../../../client/dist/static/asset-manifest.json"].


(** A host on which the manifest file does not exist. *)
Definition hostWithoutFile : Host :=
  {| dirname := "/srv/dist/core/server/app/helpers";
     path_join := String.concat "/";
     readFileSync := fun _ => Throw (HostError "ENOENT: no such file or directory");
     JSON_parse := fun _ => Ok sampleManifest |}.

(** A host whose manifest file holds the JSON text [null]. *)
Definition hostWithNullFile : Host :=
  {| dirname := "/srv/dist/core/server/app/helpers";
     path_join := String.concat "/";
     readFileSync := fun _ => Ok "null";
     JSON_parse := fun _ => Ok Null |}.

Definition sampleConfig : Config := {| dev_port := 8080%N |}.

Definition plainDevOptions : ManifestLoaderOptions :=
  {| fromWebpackDevServerURL := Some "http://127.0.0.1:8080";
     injectWebpackDevServerBundle := false |}.

Definition plainDevLoader : ManifestLoader :=
  {| manifestFilename := "asset-manifest.json"; manifest := Null;
     entrypoints := None; options := plainDevOptions;
     invalidManifestCounter := 0 |}.

(** ** Facts about the validity conditions *)

Lemma lookup_no_props (k : string) (l : list (string * value)) :
  map fst l = [] -> lookup k l = None.
Proof. destruct l as [|[k' v] l]; [reflexivity | discriminate]. Qed.

Lemma get_undefined_key (v : value) :
  truthy v = true -> first (map fst (ownProps v)) = None ->
  get v "undefined" = Ok Undefined.
Proof.
  intros Hv Hk.
  assert (Hl : lookup "undefined" (ownProps v) = None).
  { apply lookup_no_props. destruct (map fst (ownProps v)); [reflexivity | discriminate]. }
  destruct v; simpl in Hv; try discriminate; unfold get; rewrite Hl; reflexivity.
Qed.

Lemma Object_keys_truthy (v : value) :
  truthy v = true -> Object_keys v = Ok (map fst (ownProps v)).
Proof. destruct v; simpl; intros H; try discriminate; reflexivity. Qed.

(** What it takes to get past the first condition. *)
Lemma invalidManifest_false (m : value) :
  invalidManifest m = Ok false ->
  exists es k entry assets j,
    get m "entrypoints" = Ok es /\ truthy es = true /\
    first (map fst (ownProps es)) = Some k /\
    get es k = Ok entry /\ get entry "assets" = Ok assets /\
    get assets "js" = Ok j /\ truthy j = true.
Proof.
  unfold invalidManifest. intros H.
  destruct (get m "entrypoints") as [es|] eqn:Hes; simpl in H; [|discriminate].
  destruct (truthy es) eqn:Ht; simpl in H; [|discriminate].
  rewrite (Object_keys_truthy es Ht) in H. simpl in H.
  destruct (first (map fst (ownProps es))) as [k|] eqn:Hk.
  - simpl in H.
    destruct (get es k) as [entry|] eqn:He; simpl in H; [|discriminate].
    destruct (get entry "assets") as [assets|] eqn:Ha; simpl in H; [|discriminate].
    destruct (get assets "js") as [j|] eqn:Hj; simpl in H; [|discriminate].
    exists es, k, entry, assets, j.
    destruct (truthy j); [auto 10 | discriminate].
  - simpl in H. rewrite (get_undefined_key es Ht Hk) in H. discriminate.
Qed.


(** Past the first condition, the second one only asks whether the first
    entrypoint's name is the empty string. *)
Lemma second_condition (m : value) :
  invalidManifest m = Ok false ->
  exists k, firstEntrypointOf m = Ok (Some k) /\
            notReady m (Some k) = Ok (k =? "").
Proof.
  intros H. destruct (invalidManifest_false m H)
    as (es & k & entry & assets & j & Hes & Ht & Hk & He & Ha & Hj & Htj).
  exists k. split.
  - unfold firstEntrypointOf. rewrite Hes. simpl.
    rewrite (Object_keys_truthy es Ht). simpl. now rewrite Hk.
  - unfold notReady. simpl. destruct (k =? "") eqn:Hke; simpl; [reflexivity|].
    rewrite Hes. simpl. rewrite He. simpl. rewrite Ha. simpl. rewrite Hj. simpl.
    now rewrite Htj.
Qed.

Lemma invalidManifest_false_truthy (m : value) :
  invalidManifest m = Ok false -> truthy m = true.
Proof.
  intros H. destruct (invalidManifest_false m H) as (es & _ & _ & _ & _ & Hes & Ht & _).
  destruct m as [| |b|q|s|items|props]; try reflexivity; try discriminate;
    try (inversion Hes; subst es; discriminate Ht).
  destruct s; [|reflexivity]. inversion Hes; subst es; discriminate Ht.
Qed.

(** ** Facts about the loader *)

Section LoaderFacts.

Context {E : EntrypointsClass}.

Ltac run :=
  unfold fetchManifest, fetchManifestFirstCheckOnly, bind, emit, fetch, lift,
    ret, throw, pending, this, assignCounter, after, loadingTrace;
  simpl.

(** One [fetchManifest] call, case by case. *)
Lemma fetchManifest_verdict (url : string) (r : reply) (self : ManifestLoader) :
  fetchManifest url r self =
  match verdictOf r with
  | NoReply => (Pending, self, loadingTrace url)
  | Throws e => (Rejected e, self, loadingTrace url)
  | HttpFailure =>
      (Resolved Null, self,
       loadingTrace url ++ [LogError "could not load the generated manifest"])
  | Invalid =>
      let c := (invalidManifestCounter self + 1)%Z in
      (if (c >? INVALID_MANIFEST_MAX_RETRIES)%Z
       then Rejected (Error ("Invalid manifest while loading '" ++ url ++ "'"))
       else Resolved Null,
       setCounter c self, loadingTrace url)
  | NotReady => (Resolved Null, setCounter 0 self, loadingTrace url)
  | Valid m => (Resolved m, setCounter 0 self, loadingTrace url)
  end.
Proof.
  destruct r as [|e|res]; try reflexivity.
  unfold verdictOf. run.
  destruct (ok res); simpl; [|reflexivity].
  destruct (json res) as [m|e]; simpl; [|reflexivity].
  destruct (invalidManifest m) as [[|]|e] eqn:Hinv; simpl; [| |reflexivity].
  - destruct (_ >? _)%Z; reflexivity.
  - destruct (second_condition m Hinv) as (k & Hk & Hn).
    rewrite Hk. simpl. rewrite Hn. simpl.
    destruct (k =? ""); reflexivity.
Qed.

(** *** The retry loop, one reply at a time *)

Lemma retry_step (url : string) (r : reply) (net : list reply) (w : float)
    (self self' : ManifestLoader) (v : value) (t : list event) :
  fetchManifest url r self = (Resolved v, self', t) -> truthy v = false ->
  fetchManifestAndRetry url (r :: net) w self =
  after (t ++ [LogRetry w; WaitFor w])
        (fetchManifestAndRetry url net (w * 1.5)%float self').
Proof.
  intros H Hv. simpl. unfold bind at 1. rewrite H, Hv.
  unfold bind, emit, after.
  destruct (fetchManifestAndRetry url net (w * 1.5)%float self') as [[o s] t'].
  simpl. now rewrite <- app_assoc.
Qed.

Lemma settle_step (url : string) (r : reply) (net : list reply) (w : float)
    (self self' : ManifestLoader) (v : value) (t : list event) :
  fetchManifest url r self = (Resolved v, self', t) -> truthy v = true ->
  fetchManifestAndRetry url (r :: net) w self = (Resolved v, self', t).
Proof.
  intros H Hv. simpl. unfold bind. rewrite H, Hv. unfold ret.
  now rewrite app_nil_r.
Qed.

Lemma reject_step (url : string) (r : reply) (net : list reply) (w : float)
    (self self' : ManifestLoader) (e : error) (t : list event) :
  fetchManifest url r self = (Rejected e, self', t) ->
  fetchManifestAndRetry url (r :: net) w self = (Rejected e, self', t).
Proof. intros H. simpl. unfold bind. now rewrite H. Qed.

Lemma load_dev (base : string) (net : list reply) (self : ManifestLoader) :
  devServerURL (options self) = Some base ->
  load net self =
  fetchManifestAndRetry (base ++ "/" ++ manifestFilename self) net 1000%float self.
Proof.
  intros H. unfold load, bind, this. rewrite H.
  now destruct (fetchManifestAndRetry _ net 1000%float self) as [[o s] t].
Qed.

Lemma load_file (net : list reply) (self : ManifestLoader) :
  devServerURL (options self) = None -> truthy (manifest self) = true ->
  load net self = (Resolved (manifest self), self, []).
Proof. intros H Hm. unfold load, bind, this. now rewrite H, Hm. Qed.

(** A manifest without a truthy [entrypoints] property is counted. *)
Lemma absent_entrypoints_invalid (res : Response) (m es : value) :
  ok res = true -> json res = Ok m ->
  get m "entrypoints" = Ok es -> truthy es = false ->
  verdictOf (Responded res) = Invalid.
Proof.
  intros Hok Hj Hes Ht. unfold verdictOf, invalidManifest.
  now rewrite Hok, Hj, Hes; simpl; rewrite Ht.
Qed.


Lemma manifest_verdict (res : Response) (m : value) (b : bool) :
  ok res = true -> json res = Ok m -> invalidManifest m = Ok b ->
  verdictOf (Responded res) =
  if b then Invalid
  else match rbind (firstEntrypointOf m) (notReady m) with
       | Throw e => Throws e
       | Ok true => NotReady
       | Ok false => Valid m
       end.
Proof.
  intros Hok Hj Hi. unfold verdictOf. rewrite Hok, Hj, Hi. now destruct b.
Qed.

(** C1.  A manifest whose [entrypoints] mapping is empty is not counted and
    not retried: an empty object is truthy, its first key is [undefined], and
    reading [.assets] of the missing entry throws a [TypeError], which
    rejects [load()] on the spot with the counter untouched. *)
Theorem empty_entrypoints_throws (base : string) (self : ManifestLoader)
    (res : Response) (m : value) (net : list reply) :
  devServerURL (options self) = Some base ->
  ok res = true -> json res = Ok m ->
  get m "entrypoints" = Ok (Obj []) ->
  load (Responded res :: net) self =
  (Rejected (TypeError "Cannot read properties of undefined"), self,
   loadingTrace (base ++ "/" ++ manifestFilename self)).
Proof.
  intros Hdev Hok Hj Hes. rewrite (load_dev base _ _ Hdev).
  apply reject_step. rewrite fetchManifest_verdict.
  unfold verdictOf, invalidManifest. rewrite Hok, Hj, Hes. reflexivity.
Qed.




(** *** The backoff schedule *)

Lemma waits_app (a b : list event) : waits (a ++ b) = waits a ++ waits b.
Proof. apply flat_map_app. Qed.

Lemma fetches_app (a b : list event) : fetches (a ++ b) = (fetches a + fetches b)%nat.
Proof. unfold fetches. now rewrite filter_app, length_app. Qed.

Lemma fetchManifest_trace (url : string) (r : reply) (self : ManifestLoader) :
  waits (snd (fetchManifest url r self)) = [] /\
  fetches (snd (fetchManifest url r self)) = 1%nat.
Proof.
  rewrite fetchManifest_verdict. destruct (verdictOf r); simpl; auto.
Qed.

Lemma fetchManifest_options (url : string) (r : reply) (self : ManifestLoader) :
  options (snd (fst (fetchManifest url r self))) = options self.
Proof.
  rewrite fetchManifest_verdict. destruct (verdictOf r); reflexivity.
Qed.

Lemma pending_step (url : string) (r : reply) (net : list reply) (w : float)
    (self self' : ManifestLoader) (t : list event) :
  fetchManifest url r self = (Pending, self', t) ->
  fetchManifestAndRetry url (r :: net) w self = (Pending, self', t).
Proof. intros H. simpl. unfold bind. now rewrite H. Qed.

Lemma out_of_replies (url : string) (w : float) (self : ManifestLoader) :
  fetchManifestAndRetry url [] w self = (Pending, self, loadingTrace url).
Proof. reflexivity. Qed.

Lemma valid_truthy (r : reply) (m : value) :
  verdictOf r = Valid m -> truthy m = true.
Proof.
  unfold verdictOf. intros Hv. destruct r as [| |res]; try discriminate.
  destruct (ok res); simpl in Hv; [|discriminate].
  destruct (json res) as [m'|]; [|discriminate].
  destruct (invalidManifest m') as [[|]|] eqn:Hi; try discriminate.
  destruct (rbind _ _) as [[|]|]; try discriminate.
  inversion Hv; subst. now apply invalidManifest_false_truthy.
Qed.

Lemma invalid_within_ceiling (url : string) (r : reply) (self : ManifestLoader) :
  verdictOf r = Invalid ->
  (invalidManifestCounter self + 1 <= INVALID_MANIFEST_MAX_RETRIES)%Z ->
  fetchManifest url r self =
  (Resolved Null, setCounter (invalidManifestCounter self + 1) self,
   loadingTrace url).
Proof.
  intros Hv Hc. rewrite fetchManifest_verdict, Hv. simpl.
  destruct (_ >? _)%Z eqn:Hgt; [|reflexivity]. apply Z.gtb_lt in Hgt. lia.
Qed.


(** Either the call settles on this reply, with the trace of the one
    [fetchManifest], or it waits [w] and goes on with the next. *)
Lemma loop_cases (url : string) (r : reply) (net : list reply) (w : float)
    (self : ManifestLoader) :
  (fetchManifestAndRetry url (r :: net) w self = fetchManifest url r self /\
   retryable r = false \/
   invalidManifestCounter self + 1 > INVALID_MANIFEST_MAX_RETRIES /\
   isInvalid r = true /\
   fetchManifestAndRetry url (r :: net) w self = fetchManifest url r self)%Z \/
  (exists self' t,
      fetchManifest url r self = (Resolved Null, self', t) /\
      retryable r = true /\
      fetchManifestAndRetry url (r :: net) w self =
      after (t ++ [LogRetry w; WaitFor w])
            (fetchManifestAndRetry url net (w * 1.5)%float self')).
Proof.
  pose proof (fetchManifest_verdict url r self) as Hf.
  unfold retryable, isInvalid.
  destruct (verdictOf r) eqn:Hv.
  - left; left. split; [|reflexivity]. rewrite Hf. now apply pending_step.
  - left; left. split; [|reflexivity]. rewrite Hf. now apply reject_step.
  - right. eexists _, _. split; [exact Hf|]. split; [reflexivity|].
    now apply (retry_step url r net w self _ Null).
  - simpl in Hf. destruct (_ >? _)%Z eqn:Hgt.
    + left; right. apply Z.gtb_lt in Hgt. split; [lia|]. split; [reflexivity|].
      rewrite Hf. now apply reject_step.
    + right. eexists _, _. split; [exact Hf|]. split; [reflexivity|].
      now apply (retry_step url r net w self _ Null).
  - right. eexists _, _. split; [exact Hf|]. split; [reflexivity|].
    now apply (retry_step url r net w self _ Null).
  - left; left. split; [|reflexivity]. rewrite Hf.
    apply settle_step; [exact Hf|]. now apply (valid_truthy r).
Qed.



Lemma retry_invariant (url : string) (r : reply) (net : list reply)
    (self : ManifestLoader) :
  retryable r = true ->
  (0 <= invalidManifestCounter self)%Z ->
  (invalidManifestCounter self + invalidCount (r :: net)
   <= INVALID_MANIFEST_MAX_RETRIES)%Z ->
  let s := snd (fst (fetchManifest url r self)) in
  fst (fst (fetchManifest url r self)) = Resolved Null /\
  (0 <= invalidManifestCounter s)%Z /\
  (invalidManifestCounter s + invalidCount net <= INVALID_MANIFEST_MAX_RETRIES)%Z.
Proof.
  intros Hr H0 Hc. rewrite fetchManifest_verdict.
  unfold invalidCount in *. simpl filter in Hc.
  unfold isInvalid in Hc at 1. unfold retryable in Hr.
  pose proof (Zle_0_nat (List.length (filter isInvalid net))) as Hn.
  destruct (verdictOf r); try discriminate; simpl in *.
  - repeat split; lia.
  - destruct (_ >? _)%Z eqn:Hgt.
    + apply Z.gtb_lt in Hgt. lia.
    + simpl. repeat split; lia.
  - repeat split; lia.
Qed.




(** *** The ceiling *)

Lemma ceiling_after_retries (url : string) (pre : list reply) :
  forall (w : float) (self : ManifestLoader) (r : reply) (rest : list reply),
    Forall (fun r => retryable r = true) pre ->
    (0 <= invalidManifestCounter self)%Z ->
    (invalidManifestCounter self + invalidCount pre
     <= INVALID_MANIFEST_MAX_RETRIES)%Z ->
    verdictOf r = Invalid ->
    let before := afterFetches url pre self in
    ((invalidManifestCounter before + 1 > INVALID_MANIFEST_MAX_RETRIES)%Z ->
     let run := fetchManifestAndRetry url (pre ++ r :: rest) w self in
     fst (fst run) =
       Rejected (Error ("Invalid manifest while loading '" ++ url ++ "'")) /\
     snd (fst run) = setCounter (invalidManifestCounter before + 1) before /\
     fetches (snd run) = S (List.length pre) /\
     List.length (waits (snd run)) = List.length pre) /\
    ((invalidManifestCounter before + 1 <= INVALID_MANIFEST_MAX_RETRIES)%Z ->
     let run := fetchManifestAndRetry url (pre ++ [r]) w self in
     fst (fst run) = Pending /\
     snd (fst run) = setCounter (invalidManifestCounter before + 1) before /\
     fetches (snd run) = S (S (List.length pre)) /\
     List.length (waits (snd run)) = S (List.length pre)).
Proof.
  induction pre as [|p pre IH]; intros w self r rest Hall H0 Hc Hv.
  - cbn [app afterFetches List.length]. split; intros Hb; cbv zeta.
    + pose proof (fetchManifest_verdict url r self) as Hf.
      rewrite Hv in Hf. simpl in Hf.
      destruct (_ >? _)%Z eqn:Hgt;
        [|rewrite Z.gtb_ltb in Hgt; apply Z.ltb_ge in Hgt; lia].
      rewrite (reject_step url r rest w self _ _ _ Hf). simpl. auto.
    + rewrite (retry_step url r [] w self _ Null _
                 (invalid_within_ceiling url r self Hv Hb) eq_refl).
      rewrite out_of_replies. simpl. auto.
  - inversion Hall as [|? ? Hp Hall']; subst.
    destruct (retry_invariant url p pre self Hp H0 Hc) as (Ho & H0' & Hc').
    destruct (fetchManifest_trace url p self) as [Hw Hn].
    destruct (fetchManifest url p self) as [[o s'] t] eqn:Hf.
    simpl in Ho, H0', Hc', Hw, Hn. subst o.
    cbn [afterFetches]. rewrite Hf. cbn [fst snd].
    destruct (IH (w * 1.5)%float s' r rest Hall' H0' Hc' Hv) as [IHup IHdown].
    rewrite <- !app_comm_cons.
    split; intros Hb.
    + rewrite (retry_step url p _ w self s' Null t Hf eq_refl).
      destruct (IHup Hb) as (I1 & I2 & I3 & I4).
      destruct (fetchManifestAndRetry url (pre ++ r :: rest) (w * 1.5)%float s')
        as [[o s] t'].
      cbn [after fst snd] in *.
      rewrite !fetches_app, !waits_app, !length_app, Hw, Hn.
      simpl. rewrite I3, I4. auto.
    + rewrite (retry_step url p _ w self s' Null t Hf eq_refl).
      destruct (IHdown Hb) as (I1 & I2 & I3 & I4).
      destruct (fetchManifestAndRetry url (pre ++ [r]) (w * 1.5)%float s')
        as [[o s] t'].
      cbn [after fst snd] in *.
      rewrite !fetches_app, !waits_app, !length_app, Hw, Hn.
      simpl. rewrite I3, I4. auto.
Qed.

(** C4.  Whenever, at the first fetch of a [load()] or after any number of
    retries, a manifest on which the validity condition holds takes the
    counter past the ceiling, [load()] rejects with the "Invalid manifest"
    error at that fetch and schedules no wait and no further fetch; while
    the incremented counter stays within the ceiling such a manifest never
    rejects [load()], which waits and fetches again.  But a manifest whose
    [entrypoints] mapping is empty is not handled by that branch: below the
    ceiling, and whatever the counter, it rejects [load()] with a
    [TypeError]. *)
Theorem ceiling_rejects (base : string) (self : ManifestLoader) :
  devServerURL (options self) = Some base ->
  let url := (base ++ "/" ++ manifestFilename self)%string in
  (forall (pre : list reply) (r : reply) (rest : list reply),
      Forall (fun r => retryable r = true) pre ->
      (0 <= invalidManifestCounter self)%Z ->
      (invalidManifestCounter self + invalidCount pre
       <= INVALID_MANIFEST_MAX_RETRIES)%Z ->
      verdictOf r = Invalid ->
      let before := afterFetches url pre self in
      ((invalidManifestCounter before + 1 > INVALID_MANIFEST_MAX_RETRIES)%Z ->
       fst (fst (load (pre ++ r :: rest) self)) =
         Rejected (Error ("Invalid manifest while loading '" ++ url ++ "'")) /\
       snd (fst (load (pre ++ r :: rest) self)) =
         setCounter (invalidManifestCounter before + 1) before /\
       fetches (snd (load (pre ++ r :: rest) self)) = S (List.length pre) /\
       List.length (waits (snd (load (pre ++ r :: rest) self)))
       = List.length pre) /\
      ((invalidManifestCounter before + 1 <= INVALID_MANIFEST_MAX_RETRIES)%Z ->
       fst (fst (load (pre ++ [r]) self)) = Pending /\
       snd (fst (load (pre ++ [r]) self)) =
         setCounter (invalidManifestCounter before + 1) before /\
       fetches (snd (load (pre ++ [r]) self)) = S (S (List.length pre)) /\
       List.length (waits (snd (load (pre ++ [r]) self)))
       = S (List.length pre))) /\
  (forall (res : Response) (m : value) (net : list reply),
      ok res = true -> json res = Ok m ->
      get m "entrypoints" = Ok (Obj []) ->
      load (Responded res :: net) self =
      (Rejected (TypeError "Cannot read properties of undefined"), self,
       loadingTrace url)).
Proof.
  intros Hdev url. split.
  - intros pre r rest Hall H0 Hc Hv before.
    rewrite !(load_dev base _ _ Hdev). fold url.
    exact (ceiling_after_retries url pre 1000%float self r rest Hall H0 Hc Hv).
  - intros res m net Hok Hj Hes. rewrite (load_dev base _ _ Hdev).
    apply reject_step. rewrite fetchManifest_verdict.
    unfold verdictOf, invalidManifest. rewrite Hok, Hj, Hes. reflexivity.
Qed.

(** *** File mode *)

(** What a successful construction in file mode establishes. *)
Lemma constructed_from_file (h : Host) (filename : string)
    (opts : ManifestLoaderOptions) (self : ManifestLoader) (t : list event) :
  devServerURL opts = None ->
  newManifestLoader h filename opts = (Ok self, t) ->
  exists (text : string) (index : Entrypoints),
    readFileSync h
      (path_join h [dirname h; ".."; ".."; ".."; ".."; ".."; "..";
                    "client"; "dist"; "static"; filename]) = Ok text /\
    JSON_parse h text = Ok (manifest self) /\
    truthy (manifest self) = true /\
    newEntrypoints (manifest self) = Ok index /\
    entrypoints self = Some index /\
    options self = opts /\
    invalidManifestCounter self = 0%Z.
Proof.
  intros Hdev H. unfold newManifestLoader in H. rewrite Hdev in H.
  unfold loadManifestFromFile in H.
  destruct (readFileSync h _) as [text|e] eqn:Hr; simpl in H.
  - destruct (JSON_parse h text) as [m|e] eqn:Hp; simpl in H.
    + destruct (truthy m) eqn:Hm; simpl in H; [|discriminate].
      destruct (newEntrypoints m) as [index|e] eqn:Hn; [|discriminate].
      inversion H; subst; simpl. exists text, index. auto 10.
    + discriminate.
  - discriminate.
Qed.

(** C6.  In file mode, on a loader whose construction succeeded, every
    [load()] resolves at once with the manifest parsed from the file at
    construction, leaves the loader as it was and has no effect at all: no
    read, no fetch, no wait.  A call after another call therefore returns
    the same manifest again. *)
Theorem file_mode_load_cached (h : Host) (filename : string)
    (opts : ManifestLoaderOptions) (self : ManifestLoader) (t : list event) :
  devServerURL opts = None ->
  newManifestLoader h filename opts = (Ok self, t) ->
  exists text : string,
    readFileSync h
      (path_join h [dirname h; ".."; ".."; ".."; ".."; ".."; "..";
                    "client"; "dist"; "static"; filename]) = Ok text /\
    JSON_parse h text = Ok (manifest self) /\
    (forall net : list reply,
        load net self = (Resolved (manifest self), self, [])) /\
    (forall net net' : list reply,
        load net' (snd (fst (load net self))) =
        (Resolved (manifest self), self, [])).
Proof.
  intros Hdev H.
  destruct (constructed_from_file h filename opts self t Hdev H)
    as (text & index & Hr & Hp & Hm & _ & _ & Ho & _).
  assert (Hl : forall net, load net self = (Resolved (manifest self), self, [])).
  { intros net. apply load_file; [now rewrite Ho | exact Hm]. }
  exists text. repeat split; auto.
  intros net net'. rewrite (Hl net). simpl. apply Hl.
Qed.

(** The accessor of file mode, whatever the [Entrypoints] class. *)
Lemma file_mode_accessor (self : ManifestLoader) (index : Entrypoints)
    (name : string) :
  devServerURL (options self) = None -> entrypoints self = Some index ->
  exists accessor : EntrypointLoader,
    createEntrypointLoader self name = Ok accessor /\
    forall (net : list reply) (s : ManifestLoader),
      accessor net s = (Resolved (Entrypoints_get index name), s, []).
Proof.
  intros Hdev Hi. unfold createEntrypointLoader. rewrite Hdev, Hi.
  eexists. split; [reflexivity|]. reflexivity.
Qed.

(** *** Dev-server mode: the injected bundle *)

Lemma fetchManifestAndRetry_options (url : string) (net : list reply) :
  forall (w : float) (self : ManifestLoader),
    options (snd (fst (fetchManifestAndRetry url net w self))) = options self.
Proof.
  induction net as [|r net IH]; intros w self; [reflexivity|].
  destruct (loop_cases url r net w self)
    as [[[Heq _]|(_ & _ & Heq)]|(self' & t & Hf & _ & Heq)].
  - rewrite Heq. apply fetchManifest_options.
  - rewrite Heq. apply fetchManifest_options.
  - rewrite Heq. specialize (IH (w * 1.5)%float self').
    destruct (fetchManifestAndRetry url net (w * 1.5)%float self') as [[o s] t'].
    simpl in *. rewrite IH.
    pose proof (fetchManifest_options url r self) as Ho. now rewrite Hf in Ho.
Qed.

Lemma load_options (net : list reply) (self : ManifestLoader) :
  options (snd (fst (load net self))) = options self.
Proof.
  destruct (devServerURL (options self)) as [base|] eqn:Hdev.
  - rewrite (load_dev base _ _ Hdev). apply fetchManifestAndRetry_options.
  - unfold load, bind, this. rewrite Hdev.
    now destruct (truthy (manifest self)).
Qed.

(** C8.  In dev-server mode with [injectWebpackDevServerBundle] set, the
    accessor resolves to the entrypoint found for the name with
    [{src: "webpack-dev-server.js", integrity: ""}] appended as the last
    element of its JS list, and to [null] when no entrypoint was found; in
    file mode the accessor resolves to the indexed entrypoint as it is,
    whatever the flag. *)
Theorem dev_bundle_injected (self : ManifestLoader) (name : string) :
  (forall base : string,
      devServerURL (options self) = Some base ->
      exists accessor : EntrypointLoader,
        createEntrypointLoader self name = Ok accessor /\
        forall (net : list reply) (s s' : ManifestLoader) (m : value)
               (t : list event) (index : Entrypoints),
          injectWebpackDevServerBundle (options s) = true ->
          load net s = (Resolved m, s', t) ->
          newEntrypoints m = Ok index ->
          accessor net s =
          (Resolved
             match Entrypoints_get index name with
             | Some e => Some {| js := js e ++ [devServerAsset]; css := css e |}
             | None => None
             end, s', t)) /\
  (forall index : Entrypoints,
      devServerURL (options self) = None ->
      entrypoints self = Some index ->
      exists accessor : EntrypointLoader,
        createEntrypointLoader self name = Ok accessor /\
        forall (net : list reply) (s : ManifestLoader),
          accessor net s = (Resolved (Entrypoints_get index name), s, [])).
Proof.
  split.
  - intros base Hdev. unfold createEntrypointLoader. rewrite Hdev.
    eexists. split; [reflexivity|].
    intros net s s' m t index Hinj Hl Hn.
    pose proof (load_options net s) as Ho. rewrite Hl in Ho. simpl in Ho.
    unfold bind at 1. rewrite Hl. unfold bind, lift, this. rewrite Hn.
    simpl. rewrite Ho, Hinj.
    destruct (Entrypoints_get index name); simpl; now rewrite app_nil_r.
  - intros index Hdev Hi. now apply file_mode_accessor.
Qed.

(** *** The counter *)

Lemma afterFetches_app (url : string) (rs rs' : list reply) (self : ManifestLoader) :
  afterFetches url (rs ++ rs') self = afterFetches url rs' (afterFetches url rs self).
Proof. revert self. induction rs as [|r rs IH]; intros self; simpl; auto. Qed.

(** The counter is the length of the run of invalid manifests that ends the
    series of validated manifests, on top of its initial value when no
    manifest passed the check so far. *)
Lemma counter_run (url : string) (rs : list reply) :
  forall self : ManifestLoader,
  exists pre run : list reply,
    filter validated rs = pre ++ run /\
    Forall (fun r => isInvalid r = true) run /\
    ((exists (pre0 : list reply) (p : reply),
         pre = pre0 ++ [p] /\ isInvalid p = false) /\
     invalidManifestCounter (afterFetches url rs self)
       = Z.of_nat (List.length run) \/
     pre = [] /\
     invalidManifestCounter (afterFetches url rs self)
       = invalidManifestCounter self + Z.of_nat (List.length run))%Z.
Proof.
  induction rs as [|r rs IH]; intros self.
  - exists [], []. simpl. split; [reflexivity|]. split; [constructor|].
    right. split; [reflexivity | lia].
  - simpl afterFetches.
    assert (Hs : invalidManifestCounter (snd (fst (fetchManifest url r self))) =
                 match verdictOf r with
                 | Invalid => invalidManifestCounter self + 1
                 | NotReady | Valid _ => 0
                 | _ => invalidManifestCounter self
                 end%Z).
    { rewrite fetchManifest_verdict. now destruct (verdictOf r). }
    set (s' := snd (fst (fetchManifest url r self))) in *. clearbody s'.
    destruct (IH s') as (pre & run & Hfil & Hrun & Hcnt).
    simpl filter. unfold validated at 1.
    destruct Hcnt as [[(pre0 & p & Hpre & Hp) Hcnt]|[Hpre Hcnt]].
    + assert (Hkeep : exists pre1, r :: pre = pre1 ++ [p])
        by (exists (r :: pre0); now rewrite Hpre).
      destruct Hkeep as (pre1 & Hpre1).
      destruct (verdictOf r) eqn:Hv;
        try (exists pre, run; split; [exact Hfil|]; split; [exact Hrun|];
             left; split; [now exists pre0, p | exact Hcnt]);
        exists (r :: pre), run; rewrite Hfil; (split; [reflexivity|]);
        (split; [exact Hrun|]); left; (split; [now exists pre1, p | exact Hcnt]).
    + subst pre. simpl in Hfil. rewrite Hs in Hcnt.
      destruct (verdictOf r) eqn:Hv.
      * exists [], run. auto.
      * exists [], run. auto.
      * exists [], run. auto.
      * exists [], (r :: run). rewrite Hfil. split; [reflexivity|].
        split; [constructor; [unfold isInvalid; now rewrite Hv | exact Hrun]|].
        right. split; [reflexivity|]. simpl List.length. lia.
      * exists [r], run. rewrite Hfil. split; [reflexivity|].
        split; [exact Hrun|]. left. split; [|lia].
        exists [], r. split; [reflexivity|]. unfold isInvalid. now rewrite Hv.
      * exists [r], run. rewrite Hfil. split; [reflexivity|].
        split; [exact Hrun|]. left. split; [|lia].
        exists [], r. split; [reflexivity|]. unfold isInvalid. now rewrite Hv.
Qed.

(** A [load()] is a series of [fetchManifest] calls on a prefix of the
    replies. *)
Lemma load_is_a_series (url : string) (net : list reply) :
  forall (w : float) (self : ManifestLoader),
  exists used rest : list reply,
    net = used ++ rest /\
    snd (fst (fetchManifestAndRetry url net w self)) = afterFetches url used self.
Proof.
  induction net as [|r net IH]; intros w self.
  - exists [], []. split; reflexivity.
  - destruct (loop_cases url r net w self)
      as [[[Heq _]|(_ & _ & Heq)]|(self' & t & Hf & _ & Heq)].
    + exists [r], net. split; [reflexivity|]. now rewrite Heq.
    + exists [r], net. split; [reflexivity|]. now rewrite Heq.
    + destruct (IH (w * 1.5)%float self') as (used & rest & Hnet & Hs).
      exists (r :: used), rest. split; [now rewrite Hnet|].
      rewrite Heq. simpl afterFetches. rewrite Hf. simpl.
      destruct (fetchManifestAndRetry url net (w * 1.5)%float self') as [[o s] t'].
      exact Hs.
Qed.

(** C9.  A manifest that passes the validity check sets the counter to 0,
    and a reply that is not a validated manifest leaves the counter alone;
    so, on a loader that starts with the counter at 0, the counter after a
    series of fetches is the length of the unbroken run of invalid manifests
    that ends the validated manifests of the series.  The counter is above
    the ceiling only after such a run of more than
    [INVALID_MANIFEST_MAX_RETRIES] invalid manifests, also among the replies
    one [load()] consumed. *)
Theorem counter_counts_consecutive :
  (forall (url : string) (res : Response) (m : value) (self : ManifestLoader),
      ok res = true -> json res = Ok m -> invalidManifest m = Ok false ->
      invalidManifestCounter
        (snd (fst (fetchManifest url (Responded res) self))) = 0%Z) /\
  (forall (url : string) (r : reply) (self : ManifestLoader),
      validated r = false ->
      invalidManifestCounter (snd (fst (fetchManifest url r self)))
      = invalidManifestCounter self) /\
  (forall (url : string) (rs : list reply) (self : ManifestLoader),
      invalidManifestCounter self = 0%Z ->
      exists pre run : list reply,
        filter validated rs = pre ++ run /\
        Forall (fun r => isInvalid r = true) run /\
        (pre = [] \/
         exists (pre0 : list reply) (p : reply),
           pre = pre0 ++ [p] /\ isInvalid p = false) /\
        invalidManifestCounter (afterFetches url rs self)
        = Z.of_nat (List.length run) /\
        ((invalidManifestCounter (afterFetches url rs self)
          > INVALID_MANIFEST_MAX_RETRIES)%Z ->
         (Z.of_nat (List.length run) > INVALID_MANIFEST_MAX_RETRIES)%Z)) /\
  (forall (base : string) (net : list reply) (self : ManifestLoader),
      devServerURL (options self) = Some base ->
      invalidManifestCounter self = 0%Z ->
      (invalidManifestCounter (snd (fst (load net self)))
       > INVALID_MANIFEST_MAX_RETRIES)%Z ->
      exists used rest pre run : list reply,
        net = used ++ rest /\
        filter validated used = pre ++ run /\
        Forall (fun r => isInvalid r = true) run /\
        (Z.of_nat (List.length run) > INVALID_MANIFEST_MAX_RETRIES)%Z).
Proof.
  assert (Hseries : forall url rs self,
      invalidManifestCounter self = 0%Z ->
      exists pre run : list reply,
        filter validated rs = pre ++ run /\
        Forall (fun r => isInvalid r = true) run /\
        (pre = [] \/
         exists (pre0 : list reply) (p : reply),
           pre = pre0 ++ [p] /\ isInvalid p = false) /\
        invalidManifestCounter (afterFetches url rs self)
        = Z.of_nat (List.length run) /\
        ((invalidManifestCounter (afterFetches url rs self)
          > INVALID_MANIFEST_MAX_RETRIES)%Z ->
         (Z.of_nat (List.length run) > INVALID_MANIFEST_MAX_RETRIES)%Z)).
  { intros url rs self H0.
    destruct (counter_run url rs self) as (pre & run & Hfil & Hrun & Hcnt).
    exists pre, run. split; [exact Hfil|]. split; [exact Hrun|].
    destruct Hcnt as [[Hlast Hcnt]|[Hpre Hcnt]].
    - split; [now right|]. split; [exact Hcnt | lia].
    - split; [now left|]. split; lia. }
  split; [|split; [|split]].
  - intros url res m self Hok Hj Hinv.
    rewrite fetchManifest_verdict, (manifest_verdict res m false Hok Hj Hinv).
    destruct (rbind _ _) as [[|]|] eqn:Hs; try reflexivity.
    destruct (second_condition m Hinv) as (k & Hk & Hn).
    rewrite Hk in Hs. simpl in Hs. rewrite Hn in Hs. discriminate.
  - intros url r self Hv. unfold validated in Hv.
    rewrite fetchManifest_verdict.
    destruct (verdictOf r); try discriminate; reflexivity.
  - exact Hseries.
  - intros base net self Hdev H0 Hgt.
    rewrite (load_dev base _ _ Hdev) in Hgt.
    destruct (load_is_a_series (base ++ "/" ++ manifestFilename self) net 1000%float self)
      as (used & rest & Hnet & Hs).
    rewrite Hs in Hgt.
    destruct (Hseries (base ++ "/" ++ manifestFilename self)%string used self H0)
      as (pre & run & Hfil & Hrun & _ & _ & Hlen).
    exists used, rest, pre, run. auto.
Qed.

(** *** The second condition *)

(** C10.  What the second condition does on a manifest that is past the
    first one: it holds exactly when the name of the first entrypoint is
    the empty string, on which [!firstEntrypoint] is true.  With any other
    first name it is false and [fetchManifest] agrees with the function that
    has the first check alone; with the empty name [fetchManifest] returns
    [null] for a retry, the counter at 0, where that function returns the
    manifest. *)
Theorem second_check_only_for_empty_name :
  (forall (m : value) (k : option string),
      invalidManifest m = Ok false -> firstEntrypointOf m = Ok k ->
      exists name : string,
        k = Some name /\ notReady m k = Ok (name =? "") /\
        (name <> "" -> notReady m k = Ok false)) /\
  (forall (url : string) (r : reply) (self : ManifestLoader),
      (forall m : value,
          manifestOf r = Some m -> invalidManifest m = Ok false ->
          firstEntrypointOf m <> Ok (Some "")) ->
      fetchManifest url r self = fetchManifestFirstCheckOnly url r self) /\
  (forall (url : string) (res : Response) (m : value) (self : ManifestLoader),
      ok res = true -> json res = Ok m -> invalidManifest m = Ok false ->
      firstEntrypointOf m = Ok (Some "") ->
      fetchManifest url (Responded res) self =
      (Resolved Null, setCounter 0 self, loadingTrace url)).
Proof.
  split; [|split].
  - intros m k Hinv Hk.
    destruct (second_condition m Hinv) as (k' & Hk' & Hn).
    rewrite Hk in Hk'. inversion Hk'; subst k.
    exists k'. split; [reflexivity|]. split; [exact Hn|].
    intros Hne. rewrite Hn.
    destruct (String.eqb_spec k' ""); [contradiction | reflexivity].
  - intros url r self Hne.
    destruct r as [|e|res]; try reflexivity.
    run. destruct (ok res) eqn:Hok; simpl; [|reflexivity].
    destruct (json res) as [m|e] eqn:Hj; simpl; [|reflexivity].
    destruct (invalidManifest m) as [[|]|e] eqn:Hinv; simpl; try reflexivity.
    destruct (second_condition m Hinv) as (k & Hk & Hn).
    rewrite Hk. simpl. rewrite Hn. simpl.
    destruct (String.eqb_spec k ""); [|reflexivity].
    subst k. exfalso. apply (Hne m); auto.
    unfold manifestOf. now rewrite Hok, Hj.
  - intros url res m self Hok Hj Hinv Hk.
    rewrite fetchManifest_verdict, (manifest_verdict res m false Hok Hj Hinv).
    destruct (second_condition m Hinv) as (k & Hk' & Hn).
    rewrite Hk in Hk'. inversion Hk'; subst k.
    rewrite Hk. unfold rbind. rewrite Hn. reflexivity.
Qed.

End LoaderFacts.

(** ** The accessor of file mode over the index the spec describes *)

Lemma specGet_absent (name : string) (props : list (string * value)) :
  forall index : list (string * Entrypoint),
    indexOf props = Ok index -> lookup name props = None ->
    specGet index name = None.
Proof.
  induction props as [|[n raw] props IH]; intros index Hi Hl; simpl in *.
  - now inversion Hi.
  - destruct (entrypointOf raw) as [e|]; simpl in Hi; [|discriminate].
    destruct (indexOf props) as [l|]; simpl in Hi; [|discriminate].
    inversion Hi; subst. simpl.
    destruct (name =? n); [discriminate | now apply IH].
Qed.

(** C7.  In file mode, on a loader whose construction succeeded,
    [createEntrypointLoader(name)] returns an accessor that, whenever it is
    called, resolves to the one lookup of [name] in the index built at
    construction, with no effect; for a name that is not among the
    manifest's entrypoints it resolves to [null]. *)
Theorem file_mode_entrypoint_accessor (h : Host) (filename : string)
    (opts : ManifestLoaderOptions) (self : ManifestLoader) (t : list event)
    (name : string) :
  devServerURL opts = None ->
  newManifestLoader (E := specEntrypoints) h filename opts = (Ok self, t) ->
  exists (index : list (string * Entrypoint)) (accessor : EntrypointLoader),
    specNew (manifest self) = Ok index /\
    entrypoints self = Some index /\
    createEntrypointLoader self name = Ok accessor /\
    (forall (net : list reply) (s : ManifestLoader),
        accessor net s = (Resolved (specGet index name), s, [])) /\
    ((forall section : value,
         get (manifest self) "entrypoints" = Ok section ->
         lookup name (ownProps section) = None) ->
     forall (net : list reply) (s : ManifestLoader),
       accessor net s = (Resolved None, s, [])).
Proof.
  intros Hdev H.
  destruct (constructed_from_file h filename opts self t Hdev H)
    as (text & index & _ & _ & _ & Hn & Hi & Ho & _).
  assert (Hd : devServerURL (options self) = None) by now rewrite Ho.
  destruct (file_mode_accessor self index name Hd Hi) as (accessor & Hc & Ha).
  exists index, accessor. repeat split; auto.
  intros Habs net s. rewrite Ha. simpl.
  simpl in Hn. unfold specNew in Hn.
  destruct (get (manifest self) "entrypoints") as [section|] eqn:Hs;
    simpl in Hn; [|discriminate].
  specialize (Habs section eq_refl).
  destruct section; try discriminate.
  now rewrite (specGet_absent name props index Hn Habs).
Qed.

(** ** More of the loader's behaviour *)

Section LoaderBehaviour.

Context {E : EntrypointsClass}.

(** *** Construction *)

(** In file mode the constructor reads the manifest file once.  When the
    file cannot be read or parsed the cause is logged and replaced by a
    fixed [Error]; a file that parses to a falsy document ([null], [false],
    [0], the empty string) fails with the same [Error] and no log entry; and
    a loader is only ever returned with a truthy manifest, its counter at 0. *)
Theorem file_construction_outcome (h : Host) (filename : string)
    (opts : ManifestLoaderOptions) :
  devServerURL opts = None ->
  let parsed := rbind (readFileSync h (manifestFilepath h filename)) (JSON_parse h) in
  let failure : result ManifestLoader :=
    Throw (Error ("Failed to load manifest file " ++ filename)) in
  let t := [LogInfo "attempting to load manifest";
            ReadFile (manifestFilepath h filename)] in
  (forall e : error,
      parsed = Throw e ->
      newManifestLoader h filename opts =
      (failure,
       t ++ [LogError "could not load the manifest, maybe you need to run `npm run build` on the client?"])) /\
  (forall m : value,
      parsed = Ok m -> truthy m = false ->
      newManifestLoader h filename opts = (failure, t)) /\
  (forall (m : value) (e : error),
      parsed = Ok m -> truthy m = true -> newEntrypoints m = Throw e ->
      newManifestLoader h filename opts = (Throw e, t)) /\
  (forall (self : ManifestLoader) (t' : list event),
      newManifestLoader h filename opts = (Ok self, t') ->
      t' = t /\ parsed = Ok (manifest self) /\ truthy (manifest self) = true /\
      manifestFilename self = filename /\ options self = opts /\
      invalidManifestCounter self = 0%Z).
Proof.
  intros Hdev parsed failure t.
  unfold newManifestLoader, loadManifestFromFile. rewrite Hdev.
  fold (manifestFilepath h filename). fold parsed. fold t.
  split; [|split; [|split]].
  - intros e He. now rewrite He.
  - intros m Hm Ht. now rewrite Hm, Ht.
  - intros m e Hm Ht He. now rewrite Hm, Ht, He.
  - intros self t' H.
    destruct parsed as [m|e]; [|discriminate].
    destruct (truthy m) eqn:Ht; simpl in H; [|discriminate].
    destruct (newEntrypoints m); inversion H; subst; simpl.
    repeat split; auto.
Qed.

(** [createManifestLoader] builds a dev-server loader exactly when the
    environment variable is the string "true".  Then, whatever the port and
    whatever the file system holds, construction succeeds without any effect,
    the bundle flag is set, and every [load()] fetches
    [http://127.0.0.1:<port>/<filename>].  With any other value, or none, it
    is the file-mode constructor with the bundle flag off. *)
Theorem createManifestLoader_modes (h : Host) (config : Config)
    (filename : string) :
  (exists self : ManifestLoader,
      createManifestLoader h (Some "true") config filename = (Ok self, []) /\
      manifest self = Null /\ entrypoints self = None /\
      invalidManifestCounter self = 0%Z /\
      injectWebpackDevServerBundle (options self) = true /\
      forall net : list reply,
        load net self =
        fetchManifestAndRetry
          ("http://127.0.0.1:" ++ decimal (dev_port config) ++ "/" ++ filename)
          net 1000%float self) /\
  (forall env : option string,
      env <> Some "true" ->
      createManifestLoader h env config filename =
      newManifestLoader h filename
        {| fromWebpackDevServerURL := None;
           injectWebpackDevServerBundle := false |}).
Proof.
  split.
  - eexists. split; [reflexivity|]. repeat split.
    intros net.
    apply (load_dev ("http://127.0.0.1:" ++ decimal (dev_port config))%string).
    reflexivity.
  - intros env Hne. unfold createManifestLoader.
    destruct env as [v|]; [|reflexivity].
    destruct (String.eqb_spec v "true"); [subst; congruence | reflexivity].
Qed.

(** [createEntrypointLoader] does not throw on a loader the constructor
    returned, in either mode and for every name. *)
Theorem createEntrypointLoader_after_construction (h : Host) (filename : string)
    (opts : ManifestLoaderOptions) (self : ManifestLoader) (t : list event)
    (name : string) :
  newManifestLoader h filename opts = (Ok self, t) ->
  exists accessor : EntrypointLoader,
    createEntrypointLoader self name = Ok accessor.
Proof.
  intros H. destruct (devServerURL opts) as [base|] eqn:Hdev.
  - unfold newManifestLoader in H. rewrite Hdev in H. inversion H; subst.
    unfold createEntrypointLoader. simpl. rewrite Hdev. eexists; reflexivity.
  - destruct (constructed_from_file h filename opts self t Hdev H)
      as (_ & index & _ & _ & _ & _ & Hi & Ho & _).
    rewrite <- Ho in Hdev.
    destruct (file_mode_accessor self index name Hdev Hi) as (accessor & Hc & _).
    now exists accessor.
Qed.

(** *** What [load()] rejects with, besides the ceiling *)




(** *** What a dev-server [load()] guarantees *)

Lemma valid_inv (r : reply) (m : value) :
  verdictOf r = Valid m ->
  exists res : Response,
    r = Responded res /\ ok res = true /\ json res = Ok m /\
    invalidManifest m = Ok false /\
    exists name : string,
      firstEntrypointOf m = Ok (Some name) /\ name <> "".
Proof.
  unfold verdictOf. intros Hv. destruct r as [| |res]; try discriminate.
  exists res. destruct (ok res); simpl in Hv; [|discriminate].
  destruct (json res) as [m'|]; [|discriminate].
  destruct (invalidManifest m') as [[|]|] eqn:Hi; try discriminate.
  destruct (second_condition m' Hi) as (k & Hk & Hn).
  rewrite Hk in Hv. simpl in Hv. rewrite Hn in Hv.
  destruct (String.eqb_spec k ""); [discriminate|].
  inversion Hv; subst. repeat split; auto. now exists k.
Qed.

Lemma resolves_validated (url : string) (net : list reply) :
  forall (w : float) (self s : ManifestLoader) (m : value) (t : list event),
    fetchManifestAndRetry url net w self = (Resolved m, s, t) ->
    (exists r : reply, In r net /\ verdictOf r = Valid m) /\
    invalidManifestCounter s = 0%Z.
Proof.
  induction net as [|r net IH]; intros w self s m t H.
  - rewrite out_of_replies in H. discriminate.
  - pose proof (fetchManifest_verdict url r self) as Hf.
    destruct (loop_cases url r net w self)
      as [[[Heq Hno]|(Hgt & Hi & Heq)]|(self' & t0 & _ & _ & Heq)].
    + rewrite Heq, Hf in H. unfold retryable in Hno.
      destruct (verdictOf r) eqn:Hv; try discriminate.
      inversion H; subst. split; [|reflexivity].
      exists r. split; [now left | exact Hv].
    + rewrite Heq, Hf in H. unfold isInvalid in Hi.
      destruct (verdictOf r); try discriminate. simpl in H.
      destruct (_ >? _)%Z eqn:Hg; [discriminate|].
      rewrite Z.gtb_ltb in Hg. apply Z.ltb_ge in Hg. lia.
    + rewrite Heq in H.
      destruct (fetchManifestAndRetry url net (w * 1.5)%float self')
        as [[o s0] t'] eqn:Hrec.
      simpl in H. inversion H; subst.
      destruct (IH _ _ _ _ _ Hrec) as [(r' & Hin & Hv) Hc].
      split; [|exact Hc]. exists r'. split; [now right | exact Hv].
Qed.

(** When a dev-server [load()] resolves, the manifest it returns is the body
    of a 2xx response among the replies, it is past both conditions (truthy
    [entrypoints], a first entrypoint with a non-empty name and a truthy
    [js]), and the counter is 0 afterwards. *)
Theorem load_resolves_validated (base : string) (net : list reply)
    (self s : ManifestLoader) (m : value) (t : list event) :
  devServerURL (options self) = Some base ->
  load net self = (Resolved m, s, t) ->
  (exists res : Response,
      In (Responded res) net /\ ok res = true /\ json res = Ok m) /\
  (exists (es entry assets j : value) (name : string),
      get m "entrypoints" = Ok es /\ truthy es = true /\
      first (map fst (ownProps es)) = Some name /\ name <> "" /\
      get es name = Ok entry /\ get entry "assets" = Ok assets /\
      get assets "js" = Ok j /\ truthy j = true) /\
  invalidManifestCounter s = 0%Z.
Proof.
  intros Hdev H. rewrite (load_dev base _ _ Hdev) in H.
  destruct (resolves_validated _ net _ _ _ _ _ H) as [(r & Hin & Hv) Hc].
  destruct (valid_inv r m Hv) as (res & Hr & Hok & Hj & Hi & name & Hname & Hne).
  subst r. split; [now exists res|]. split; [|exact Hc].
  destruct (invalidManifest_false m Hi)
    as (es & k & entry & assets & j & Hes & Ht & Hk & He & Ha & Hjs & Htj).
  assert (k = name).
  { unfold firstEntrypointOf in Hname. rewrite Hes in Hname. simpl in Hname.
    rewrite (Object_keys_truthy es Ht) in Hname. simpl in Hname.
    rewrite Hk in Hname. now inversion Hname. }
  subst k. exists es, entry, assets, j, name. auto 10.
Qed.

Lemma fetchManifest_frame (url : string) (r : reply) (self : ManifestLoader) :
  let s := snd (fst (fetchManifest url r self)) in
  manifestFilename s = manifestFilename self /\
  manifest s = manifest self /\
  entrypoints s = entrypoints self /\
  options s = options self /\
  ((0 <= invalidManifestCounter self)%Z -> (0 <= invalidManifestCounter s)%Z).
Proof.
  rewrite fetchManifest_verdict.
  destruct (verdictOf r); simpl; repeat split; auto; lia.
Qed.

Lemma loop_frame (url : string) (net : list reply) :
  forall (w : float) (self : ManifestLoader),
    let s := snd (fst (fetchManifestAndRetry url net w self)) in
    manifestFilename s = manifestFilename self /\
    manifest s = manifest self /\
    entrypoints s = entrypoints self /\
    options s = options self /\
    ((0 <= invalidManifestCounter self)%Z -> (0 <= invalidManifestCounter s)%Z).
Proof.
  induction net as [|r net IH]; intros w self.
  - rewrite out_of_replies. simpl. auto.
  - pose proof (fetchManifest_frame url r self) as Hf.
    destruct (loop_cases url r net w self)
      as [[[Heq _]|(_ & _ & Heq)]|(self' & t & Hr & _ & Heq)].
    + cbv zeta. now rewrite Heq.
    + cbv zeta. now rewrite Heq.
    + cbv zeta. rewrite Heq. rewrite Hr in Hf. simpl in Hf.
      specialize (IH (w * 1.5)%float self').
      destruct (fetchManifestAndRetry url net (w * 1.5)%float self') as [[o s] t'].
      simpl in *.
      destruct Hf as (F1 & F2 & F3 & F4 & F5).
      destruct IH as (I1 & I2 & I3 & I4 & I5).
      repeat split; try congruence. auto.
Qed.

(** [load()] changes nothing of the loader but the counter: in dev-server
    mode the fetched manifest is not kept in the [manifest] or [entrypoints]
    fields, and the options stay as they are.  A counter that is not
    negative stays so. *)
Theorem load_frame (net : list reply) (self : ManifestLoader) :
  let s := snd (fst (load net self)) in
  manifestFilename s = manifestFilename self /\
  manifest s = manifest self /\
  entrypoints s = entrypoints self /\
  options s = options self /\
  ((0 <= invalidManifestCounter self)%Z -> (0 <= invalidManifestCounter s)%Z).
Proof.
  destruct (devServerURL (options self)) as [base|] eqn:Hdev.
  - rewrite (load_dev base _ _ Hdev). apply loop_frame.
  - unfold load, bind, this. rewrite Hdev.
    destruct (truthy (manifest self)); simpl; auto.
Qed.

Lemma timeline_app (a b : list event) : timeline (a ++ b) = timeline a ++ timeline b.
Proof. apply filter_app. Qed.

Lemma fetchManifest_timeline (url : string) (r : reply) (self : ManifestLoader) :
  timeline (snd (fetchManifest url r self)) = [Fetch url] /\
  waits (snd (fetchManifest url r self)) = [].
Proof. rewrite fetchManifest_verdict. now destruct (verdictOf r). Qed.

Lemma loop_trace_shape (url : string) (net : list reply) :
  forall (w : float) (self : ManifestLoader),
  exists ws : list float,
    timeline (snd (fetchManifestAndRetry url net w self)) =
    Fetch url :: flat_map (fun ms => [LogRetry ms; WaitFor ms; Fetch url]) ws /\
    waits (snd (fetchManifestAndRetry url net w self)) = ws.
Proof.
  induction net as [|r net IH]; intros w self.
  - exists []. rewrite out_of_replies. split; reflexivity.
  - destruct (fetchManifest_timeline url r self) as [Ht Hw].
    destruct (loop_cases url r net w self)
      as [[[Heq _]|(_ & _ & Heq)]|(self' & t0 & Hf & _ & Heq)].
    + exists []. rewrite Heq, Ht, Hw. split; reflexivity.
    + exists []. rewrite Heq, Ht, Hw. split; reflexivity.
    + destruct (IH (w * 1.5)%float self') as (ws & IHt & IHw).
      exists (w :: ws). rewrite Heq. rewrite Hf in Ht, Hw. simpl in Ht, Hw.
      destruct (fetchManifestAndRetry url net (w * 1.5)%float self') as [[o s] t'].
      simpl in *.
      rewrite !timeline_app, !waits_app, Ht, Hw, IHt, IHw. split; reflexivity.
Qed.

(** However a dev-server [load()] ends (resolved, rejected or still
    waiting for the network), its fetches, warnings and waits occur in this
    order: one fetch, then, for every wait, the warning that announces it,
    the wait, and one more fetch.  So it never waits after its last fetch,
    never fetches twice without waiting in between, and always fetches the
    same URL. *)
Theorem load_trace_shape (base : string) (net : list reply)
    (self : ManifestLoader) :
  devServerURL (options self) = Some base ->
  let url := (base ++ "/" ++ manifestFilename self)%string in
  exists ws : list float,
    timeline (snd (load net self)) =
    Fetch url :: flat_map (fun ms => [LogRetry ms; WaitFor ms; Fetch url]) ws /\
    waits (snd (load net self)) = ws.
Proof.
  intros Hdev url. rewrite (load_dev base _ _ Hdev). apply loop_trace_shape.
Qed.

Lemma loop_settled_is_final (url : string) (net more : list reply) :
  forall (w : float) (self : ManifestLoader),
    fst (fst (fetchManifestAndRetry url net w self)) <> Pending ->
    fetchManifestAndRetry url (net ++ more) w self =
    fetchManifestAndRetry url net w self.
Proof.
  induction net as [|r net IH]; intros w self H.
  - rewrite out_of_replies in H. now contradiction H.
  - rewrite <- app_comm_cons.
    destruct (fetchManifest url r self) as [[[v|e|] s] t] eqn:Hf.
    + destruct (truthy v) eqn:Hv.
      * now rewrite !(settle_step url r _ w self s v t Hf Hv).
      * rewrite (retry_step url r net w self s v t Hf Hv) in H.
        rewrite !(retry_step url r _ w self s v t Hf Hv).
        rewrite IH; [reflexivity|].
        now destruct (fetchManifestAndRetry url net (w * 1.5)%float s) as [[o s0] t0].
    + now rewrite !(reject_step url r _ w self s e t Hf).
    + now rewrite !(pending_step url r _ w self s t Hf).
Qed.

(** Once a dev-server [load()] has resolved or rejected, it is over: the
    replies the network would give to further fetches change neither its
    result nor the loader nor its effects. *)
Theorem load_settled_is_final (base : string) (net more : list reply)
    (self : ManifestLoader) :
  devServerURL (options self) = Some base ->
  fst (fst (load net self)) <> Pending ->
  load (net ++ more) self = load net self.
Proof.
  intros Hdev H. rewrite !(load_dev base _ _ Hdev) in *.
  now apply loop_settled_is_final.
Qed.

(** *** The dev-server accessor *)

(** In dev-server mode each call of the accessor is one [load()]: it has
    the effects of that [load()] and no other, rejects with what [load()]
    rejects with, stays pending with it, rejects when [Entrypoints] cannot
    index the fetched manifest, and with the bundle flag off resolves to the
    entrypoint found for the name, unchanged, or to [null]. *)
Theorem dev_accessor_follows_load (self : ManifestLoader) (name base : string) :
  devServerURL (options self) = Some base ->
  exists accessor : EntrypointLoader,
    createEntrypointLoader self name = Ok accessor /\
    forall (net : list reply) (s s' : ManifestLoader) (t : list event),
      (forall e : error,
          load net s = (Rejected e, s', t) ->
          accessor net s = (Rejected e, s', t)) /\
      (load net s = (Pending, s', t) -> accessor net s = (Pending, s', t)) /\
      (forall (m : value) (e : error),
          load net s = (Resolved m, s', t) -> newEntrypoints m = Throw e ->
          accessor net s = (Rejected e, s', t)) /\
      (forall (m : value) (index : Entrypoints),
          load net s = (Resolved m, s', t) -> newEntrypoints m = Ok index ->
          injectWebpackDevServerBundle (options s) = false ->
          accessor net s = (Resolved (Entrypoints_get index name), s', t)).
Proof.
  intros Hdev. unfold createEntrypointLoader. rewrite Hdev.
  eexists. split; [reflexivity|].
  intros net s s' t. repeat split.
  - intros e Hl. unfold bind at 1. now rewrite Hl.
  - intros Hl. unfold bind at 1. now rewrite Hl.
  - intros m e Hl Hn. unfold bind at 1. rewrite Hl.
    unfold bind, lift, throw. rewrite Hn. simpl. now rewrite app_nil_r.
  - intros m index Hl Hn Hinj.
    pose proof (load_options net s) as Ho. rewrite Hl in Ho. simpl in Ho.
    unfold bind at 1. rewrite Hl. unfold bind, lift, this. rewrite Hn.
    simpl. rewrite Ho, Hinj.
    destruct (Entrypoints_get index name); simpl; now rewrite app_nil_r.
Qed.

(** *** After the ceiling *)




End LoaderBehaviour.

(** ** The theorems at work on the sample documents *)

(** [{"entrypoints": {}}] with status 200 rejects [load()] with a
    [TypeError]; the counter stays at 0. *)
Lemma empty_entrypoints_throws_witness :
  load [Responded (respond 200 manifestWithEmptyEntrypoints)] devLoader =
  (Rejected (TypeError "Cannot read properties of undefined"), devLoader,
   loadingTrace sampleURL).
Proof.
  apply (empty_entrypoints_throws "http://127.0.0.1:8080" devLoader
           (respond 200 manifestWithEmptyEntrypoints)
           manifestWithEmptyEntrypoints []); reflexivity.
Defined.





Lemma ceiling_rejects_witness :
  (fst (fst (load [Responded (respond 503 Null);
                   Responded (respond 200 manifestWithoutEntrypoints);
                   Responded (respond 200 sampleManifest)] devLoaderAtCeiling)) =
   Rejected (Error ("Invalid manifest while loading '" ++ sampleURL ++ "'")) /\
   snd (fst (load [Responded (respond 503 Null);
                   Responded (respond 200 manifestWithoutEntrypoints);
                   Responded (respond 200 sampleManifest)] devLoaderAtCeiling)) =
   setCounter 10000 devLoader /\
   fetches (snd (load [Responded (respond 503 Null);
                       Responded (respond 200 manifestWithoutEntrypoints);
                       Responded (respond 200 sampleManifest)]
                      devLoaderAtCeiling)) = 2%nat /\
   List.length
     (waits (snd (load [Responded (respond 503 Null);
                        Responded (respond 200 manifestWithoutEntrypoints);
                        Responded (respond 200 sampleManifest)]
                       devLoaderAtCeiling))) = 1%nat) /\
  (fst (fst (load [Responded (respond 503 Null);
                   Responded (respond 200 manifestWithoutEntrypoints)]
                  (setCounter 9998 devLoader))) = Pending /\
   snd (fst (load [Responded (respond 503 Null);
                   Responded (respond 200 manifestWithoutEntrypoints)]
                  (setCounter 9998 devLoader))) = devLoaderAtCeiling /\
   fetches (snd (load [Responded (respond 503 Null);
                       Responded (respond 200 manifestWithoutEntrypoints)]
                      (setCounter 9998 devLoader))) = 3%nat /\
   List.length
     (waits (snd (load [Responded (respond 503 Null);
                        Responded (respond 200 manifestWithoutEntrypoints)]
                       (setCounter 9998 devLoader)))) = 2%nat) /\
  load [Responded (respond 200 manifestWithEmptyEntrypoints)] devLoader =
  (Rejected (TypeError "Cannot read properties of undefined"), devLoader,
   loadingTrace sampleURL).
Proof.
  split; [|split].
  - apply (proj1 (ceiling_rejects "http://127.0.0.1:8080" devLoaderAtCeiling
                    eq_refl)
                 [Responded (respond 503 Null)]
                 (Responded (respond 200 manifestWithoutEntrypoints))
                 [Responded (respond 200 sampleManifest)]).
    + repeat constructor.
    + vm_compute; discriminate.
    + vm_compute; discriminate.
    + reflexivity.
    + reflexivity.
  - apply (proj1 (ceiling_rejects "http://127.0.0.1:8080"
                    (setCounter 9998 devLoader) eq_refl)
                 [Responded (respond 503 Null)]
                 (Responded (respond 200 manifestWithoutEntrypoints)) []).
    + repeat constructor.
    + vm_compute; discriminate.
    + vm_compute; discriminate.
    + reflexivity.
    + vm_compute; discriminate.
  - apply (proj2 (ceiling_rejects "http://127.0.0.1:8080" devLoader eq_refl)
                 (respond 200 manifestWithEmptyEntrypoints)
                 manifestWithEmptyEntrypoints []); reflexivity.
Defined.


Lemma file_mode_load_cached_witness :
  newManifestLoader sampleHost "asset-manifest.json" fileOptions
  = (Ok fileLoader, fileLoaderTrace) /\
  exists text : string,
    readFileSync sampleHost
      (path_join sampleHost
         [dirname sampleHost; ".."; ".."; ".."; ".."; ".."; "..";
          "client"; "dist"; "static"; "asset-manifest.json"]) = Ok text /\
    JSON_parse sampleHost text = Ok sampleManifest /\
    (forall net : list reply,
        load net fileLoader = (Resolved sampleManifest, fileLoader, [])) /\
    (forall net net' : list reply,
        load net' (snd (fst (load net fileLoader))) =
        (Resolved sampleManifest, fileLoader, [])).
Proof.
  split; [reflexivity|].
  apply (file_mode_load_cached sampleHost "asset-manifest.json" fileOptions
           fileLoader fileLoaderTrace); reflexivity.
Defined.

Lemma file_mode_entrypoint_accessor_witness :
  exists (index : list (string * Entrypoint)) (accessor : EntrypointLoader),
    specNew sampleManifest = Ok index /\
    entrypoints fileLoader = Some index /\
    createEntrypointLoader fileLoader "stream" = Ok accessor /\
    (forall (net : list reply) (s : ManifestLoader),
        accessor net s = (Resolved (specGet index "stream"), s, [])) /\
    ((forall section : value,
         get sampleManifest "entrypoints" = Ok section ->
         lookup "stream" (ownProps section) = None) ->
     forall (net : list reply) (s : ManifestLoader),
       accessor net s = (Resolved None, s, [])).
Proof.
  apply (file_mode_entrypoint_accessor sampleHost "asset-manifest.json"
           fileOptions fileLoader fileLoaderTrace "stream"); reflexivity.
Defined.

Lemma dev_bundle_injected_witness :
  exists accessor : EntrypointLoader,
    createEntrypointLoader devLoader "main" = Ok accessor /\
    accessor [Responded (respond 200 sampleManifest)] devLoader =
    (Resolved
       (Some {| js := [{| src := "assets/js/main.js"; integrity := "sha256-abc" |};
                       {| src := "webpack-dev-server.js"; integrity := "" |}];
                css := [] |}),
     devLoader, loadingTrace sampleURL).
Proof.
  destruct (proj1 (dev_bundle_injected devLoader "main")
              "http://127.0.0.1:8080" eq_refl) as (accessor & Hc & Ha).
  exists accessor. split; [exact Hc|].
  apply (Ha [Responded (respond 200 sampleManifest)] devLoader devLoader
            sampleManifest (loadingTrace sampleURL) sampleIndex);
    reflexivity.
Defined.

Lemma counter_counts_consecutive_witness :
  invalidManifestCounter
    (snd (fst (fetchManifest sampleURL (Responded (respond 200 sampleManifest))
                 devLoaderAtCeiling))) = 0%Z /\
  invalidManifestCounter
    (snd (fst (fetchManifest sampleURL (Responded (respond 503 Null))
                 devLoaderAtCeiling))) = INVALID_MANIFEST_MAX_RETRIES /\
  (exists pre run : list reply,
    filter validated
      [Responded (respond 200 manifestWithoutJs);
       Responded (respond 200 sampleManifest);
       Responded (respond 200 manifestWithoutEntrypoints);
       Responded (respond 503 Null);
       Responded (respond 200 manifestWithoutJs)] = pre ++ run /\
    Forall (fun r => isInvalid r = true) run /\
    (pre = [] \/
     exists (pre0 : list reply) (p : reply),
       pre = pre0 ++ [p] /\ isInvalid p = false) /\
    invalidManifestCounter
      (afterFetches sampleURL
         [Responded (respond 200 manifestWithoutJs);
          Responded (respond 200 sampleManifest);
          Responded (respond 200 manifestWithoutEntrypoints);
          Responded (respond 503 Null);
          Responded (respond 200 manifestWithoutJs)] devLoader)
    = Z.of_nat (List.length run) /\
    ((invalidManifestCounter
        (afterFetches sampleURL
           [Responded (respond 200 manifestWithoutJs);
            Responded (respond 200 sampleManifest);
            Responded (respond 200 manifestWithoutEntrypoints);
            Responded (respond 503 Null);
            Responded (respond 200 manifestWithoutJs)] devLoader)
      > INVALID_MANIFEST_MAX_RETRIES)%Z ->
     (Z.of_nat (List.length run) > INVALID_MANIFEST_MAX_RETRIES)%Z)) /\
  exists used rest pre run : list reply,
    repeat (Responded (respond 200 manifestWithoutEntrypoints)) (Z.to_nat 10000)
    = used ++ rest /\
    filter validated used = pre ++ run /\
    Forall (fun r => isInvalid r = true) run /\
    (Z.of_nat (List.length run) > INVALID_MANIFEST_MAX_RETRIES)%Z.
Proof.
  destruct (@counter_counts_consecutive specEntrypoints)
    as (Hreset & Hkeep & Hrun & Hload).
  split; [|split; [|split]]; cycle 3.
  - apply (Hload "http://127.0.0.1:8080" _ devLoader); [reflexivity | reflexivity |].
    lazy; reflexivity.
  - apply (Hreset sampleURL (respond 200 sampleManifest) sampleManifest
             devLoaderAtCeiling); reflexivity.
  - apply (Hkeep sampleURL (Responded (respond 503 Null)) devLoaderAtCeiling).
    reflexivity.
  - apply (Hrun sampleURL _ devLoader). reflexivity.
Defined.

(** With the empty string as the first entrypoint's name, the manifest is
    past the first condition and the second one holds: [fetchManifest]
    returns [null] for a retry where the function with the first check
    alone returns the manifest. *)
Lemma second_check_is_live :
  invalidManifest manifestWithEmptyName = Ok false /\
  firstEntrypointOf manifestWithEmptyName = Ok (Some "") /\
  notReady manifestWithEmptyName (Some "") = Ok true /\
  fetchManifest sampleURL (Responded (respond 200 manifestWithEmptyName))
                devLoader
  = (Resolved Null, devLoader, loadingTrace sampleURL) /\
  fetchManifestFirstCheckOnly sampleURL
    (Responded (respond 200 manifestWithEmptyName)) devLoader
  = (Resolved manifestWithEmptyName, devLoader, loadingTrace sampleURL).
Proof. repeat split; reflexivity. Qed.

Lemma second_check_only_for_empty_name_witness :
  notReady sampleManifest (Some "main") = Ok false /\
  fetchManifest sampleURL (Responded (respond 200 sampleManifest)) devLoader
  = fetchManifestFirstCheckOnly sampleURL
      (Responded (respond 200 sampleManifest)) devLoader /\
  fetchManifest sampleURL (Responded (respond 200 manifestWithEmptyName))
                devLoaderAtCeiling
  = (Resolved Null, devLoader, loadingTrace sampleURL).
Proof.
  destruct (@second_check_only_for_empty_name specEntrypoints)
    as (Hfalse & Hsame & Hempty).
  split; [|split].
  - destruct (Hfalse sampleManifest (Some "main") eq_refl eq_refl)
      as (name & Hname & _ & Hne).
    inversion Hname; subst name. apply Hne. discriminate.
  - apply Hsame. intros m Hm _. inversion Hm; subst. discriminate.
  - apply (Hempty sampleURL (respond 200 manifestWithEmptyName)
             manifestWithEmptyName devLoaderAtCeiling); reflexivity.
Defined.

(** ** The further theorems at work *)

Lemma file_construction_outcome_witness :
  newManifestLoader hostWithoutFile "asset-manifest.json" fileOptions =
  (Throw (Error "Failed to load manifest file asset-manifest.json"),
   fileLoaderTrace ++
   [LogError "could not load the manifest, maybe you need to run `npm run build` on the client?"]) /\
  newManifestLoader hostWithNullFile "asset-manifest.json" fileOptions =
  (Throw (Error "Failed to load manifest file asset-manifest.json"),
   fileLoaderTrace).
Proof.
  split.
  - apply (proj1 (file_construction_outcome hostWithoutFile
                    "asset-manifest.json" fileOptions eq_refl)
                 (HostError "ENOENT: no such file or directory")).
    reflexivity.
  - apply (proj1 (proj2 (file_construction_outcome hostWithNullFile
                           "asset-manifest.json" fileOptions eq_refl)) Null);
      reflexivity.
Defined.

Lemma createManifestLoader_modes_witness :
  createManifestLoader hostWithoutFile (Some "TRUE") sampleConfig
    "asset-manifest.json" =
  newManifestLoader hostWithoutFile "asset-manifest.json"
    {| fromWebpackDevServerURL := None; injectWebpackDevServerBundle := false |} /\
  createManifestLoader hostWithoutFile None sampleConfig "asset-manifest.json" =
  newManifestLoader hostWithoutFile "asset-manifest.json"
    {| fromWebpackDevServerURL := None; injectWebpackDevServerBundle := false |}.
Proof.
  split;
    apply (proj2 (createManifestLoader_modes hostWithoutFile sampleConfig
                    "asset-manifest.json")); discriminate.
Defined.

Lemma createEntrypointLoader_after_construction_witness :
  exists accessor : EntrypointLoader,
    createEntrypointLoader fileLoader "main" = Ok accessor.
Proof.
  apply (createEntrypointLoader_after_construction sampleHost
           "asset-manifest.json" fileOptions fileLoader fileLoaderTrace "main").
  reflexivity.
Defined.



Lemma load_resolves_validated_witness :
  (exists res : Response,
      In (Responded res)
         [Responded (respond 503 Null); Responded (respond 200 sampleManifest)] /\
      ok res = true /\ json res = Ok sampleManifest) /\
  (exists (es entry assets j : value) (name : string),
      get sampleManifest "entrypoints" = Ok es /\ truthy es = true /\
      first (map fst (ownProps es)) = Some name /\ name <> "" /\
      get es name = Ok entry /\ get entry "assets" = Ok assets /\
      get assets "js" = Ok j /\ truthy j = true) /\
  invalidManifestCounter devLoader = 0%Z.
Proof.
  apply (load_resolves_validated "http://127.0.0.1:8080"
           [Responded (respond 503 Null); Responded (respond 200 sampleManifest)]
           devLoaderAtCeiling devLoader sampleManifest
           ((loadingTrace sampleURL
             ++ [LogError "could not load the generated manifest"])
            ++ [LogRetry 1000; WaitFor 1000] ++ loadingTrace sampleURL));
    reflexivity.
Defined.

Lemma load_frame_witness :
  manifest (snd (fst (load [Responded (respond 200 sampleManifest)] devLoader)))
  = Null /\
  entrypoints (snd (fst (load [Responded (respond 200 sampleManifest)] devLoader)))
  = None /\
  (0 <= invalidManifestCounter
          (snd (fst (load [Responded (respond 200 manifestWithoutJs)] devLoader))))%Z.
Proof.
  destruct (load_frame [Responded (respond 200 sampleManifest)] devLoader)
    as (_ & Hm & He & _).
  destruct (load_frame [Responded (respond 200 manifestWithoutJs)] devLoader)
    as (_ & _ & _ & _ & Hc).
  split; [exact Hm|]. split; [exact He|]. apply Hc. simpl. lia.
Defined.

Lemma load_trace_shape_witness :
  exists ws : list float,
    timeline (snd (load [Responded (respond 503 Null);
                         Responded (respond 200 manifestWithoutJs);
                         Responded (respond 200 manifestWithEmptyEntrypoints)]
                        devLoader)) =
    Fetch sampleURL
    :: flat_map (fun ms => [LogRetry ms; WaitFor ms; Fetch sampleURL]) ws /\
    waits (snd (load [Responded (respond 503 Null);
                      Responded (respond 200 manifestWithoutJs);
                      Responded (respond 200 manifestWithEmptyEntrypoints)]
                     devLoader)) = ws.
Proof.
  apply (load_trace_shape "http://127.0.0.1:8080"). reflexivity.
Defined.

Lemma load_settled_is_final_witness :
  load ([Responded (respond 200 sampleManifest)]
        ++ [Responded (respond 200 manifestWithEmptyEntrypoints)]) devLoader =
  load [Responded (respond 200 sampleManifest)] devLoader.
Proof.
  apply (load_settled_is_final "http://127.0.0.1:8080"); [reflexivity|].
  discriminate.
Defined.

Lemma dev_accessor_follows_load_witness :
  exists accessor : EntrypointLoader,
    createEntrypointLoader plainDevLoader "main" = Ok accessor /\
    accessor [Responded (respond 200 sampleManifest)] plainDevLoader =
    (Resolved
       (Some {| js := [{| src := "assets/js/main.js"; integrity := "sha256-abc" |}];
                css := [] |}),
     plainDevLoader, loadingTrace sampleURL) /\
    accessor [Responded (respond 200 manifestWithEmptyEntrypoints)] plainDevLoader =
    (Rejected (TypeError "Cannot read properties of undefined"),
     plainDevLoader, loadingTrace sampleURL).
Proof.
  destruct (dev_accessor_follows_load plainDevLoader "main"
              "http://127.0.0.1:8080" eq_refl) as (accessor & Hc & Ha).
  exists accessor. split; [exact Hc|]. split.
  - destruct (Ha [Responded (respond 200 sampleManifest)] plainDevLoader
                plainDevLoader (loadingTrace sampleURL)) as (_ & _ & _ & Hfound).
    apply (Hfound sampleManifest sampleIndex); reflexivity.
  - destruct (Ha [Responded (respond 200 manifestWithEmptyEntrypoints)]
                plainDevLoader plainDevLoader (loadingTrace sampleURL))
      as (Hrej & _).
    apply Hrej. reflexivity.
Defined.

